(** * WeatherWise backend (src/backend/app.py): a shallow embedding

    The Flask backend normalises a weather-provider forecast into three
    canonical day records and derives energy-saving tips for each day, by an
    LLM call or by a rule engine followed by focus overrides.

    Python values flowing through the code (JSON bodies, day dicts, focus
    tokens) are modelled by [pyval]; Python numbers (int and float) are
    rationals, and the arithmetic of the mock generator is carried out on
    IEEE doubles ([PrimFloat]).  A Python [str] is held as its UTF-8 bytes.
    Fallible code returns [res], an error monad whose failures are the
    Python exceptions the code can raise or catch. *)

From Stdlib Require Import String Ascii List Bool ZArith QArith Qround Qminmax Lia Lqa.
From Stdlib Require Import Floats.
Import ListNotations.
Open Scope string_scope.

Set Warnings "-register-all".

(** ** Python values *)

(** A number read from JSON or computed by the code: an [int] is a
    rational with denominator 1, a [float] is the decimal value of its
    [repr], [n / 10^k] with [k >= 1] (so [2.5] is [25 # 10] and [3.0] is
    [30 # 10]).  Comparisons of doubles agree with comparisons of these
    decimals, since [repr] round-trips and rounding is monotone. *)
Inductive pyval : Type :=
| PNone
| PBool (b : bool)
| PNum (q : Q)
| PStr (s : string)
| PList (l : list pyval)
| PDict (kvs : list (string * pyval)).

(** Exceptions raised by the modelled code. *)
Inductive exn : Type :=
| TypeError
| AttributeError
| ValueError
| KeyError
| HTTPError (status_code : option Z)
  (** an exception of the Gemini SDK ([google.api_core] errors and the
      like) *)
| GenAIError.

Inductive res (A : Type) : Type :=
| Ok (a : A)
| Err (e : exn).
Arguments Ok {A} a.
Arguments Err {A} e.

Definition bind {A B} (m : res A) (k : A -> res B) : res B :=
  match m with Ok a => k a | Err e => Err e end.

Notation "x <- m ;; k" := (bind m (fun x => k))
  (at level 61, m at next level, right associativity).

Definition res_map {A B} (f : A -> B) (m : res A) : res B :=
  match m with Ok a => Ok (f a) | Err e => Err e end.

Definition is_err {A} (m : res A) : bool :=
  match m with Ok _ => false | Err _ => true end.

(** [for x in xs: ...] collecting results, stopping at the first exception. *)
Fixpoint res_mapM {A B} (f : A -> res B) (xs : list A) : res (list B) :=
  match xs with
  | [] => Ok []
  | x :: xs' => y <- f x ;; ys <- res_mapM f xs' ;; Ok (y :: ys)
  end.

(** Dict lookup: [kvs.get(k)] returns the value stored under [k], if any. *)
Fixpoint dget (kvs : list (string * pyval)) (k : string) : option pyval :=
  match kvs with
  | [] => None
  | (k', v) :: rest => if String.eqb k k' then Some v else dget rest k
  end.

(** [x.get(k, default)]: only dicts have [.get]. *)
Definition py_get (x : pyval) (k : string) (default : pyval) : res pyval :=
  match x with
  | PDict kvs => Ok (match dget kvs k with Some v => v | None => default end)
  | _ => Err AttributeError
  end.

(** Truthiness: [bool(x)]. *)
Definition truthy (x : pyval) : bool :=
  match x with
  | PNone => false
  | PBool b => b
  | PNum q => negb (Qeq_bool q 0)
  | PStr s => negb (String.eqb s "")
  | PList l => match l with [] => false | _ => true end
  | PDict kvs => match kvs with [] => false | _ => true end
  end.

(** [x or y] *)
Definition py_or (x y : pyval) : pyval := if truthy x then x else y.

Definition Qltb (x y : Q) : bool := negb (Qle_bool y x).

(** [x > c] and [x < c] against a numeric literal [c]; [bool] compares as
    [int], anything else raises [TypeError]. *)
Definition py_num (x : pyval) : res Q :=
  match x with
  | PNum q => Ok q
  | PBool b => Ok (if b then 1 else 0)
  | _ => Err TypeError
  end.

Definition py_gt (x : pyval) (c : Q) : res bool := q <- py_num x ;; Ok (Qltb c q).
Definition py_lt (x : pyval) (c : Q) : res bool := q <- py_num x ;; Ok (Qltb q c).

(** ** Strings *)

(** The byte with code [n], and the test [c = n]. *)
Definition byte (n : nat) : ascii := ascii_of_nat n.
Definition byte_is (c : ascii) (n : nat) : bool := Nat.eqb (nat_of_ascii c) n.

(** [str.lower()] on an ASCII letter. *)
Definition lower_ascii (c : ascii) : ascii :=
  let n := nat_of_ascii c in
  if ((65 <=? n) && (n <=? 90))%nat then ascii_of_nat (n + 32)%nat else c.

(** [str.lower()] on UTF-8 bytes.  The code only compares lowercased text
    with ASCII words ([== "solar"], ["sunny" in desc]), so what matters is
    the ASCII a lowercase form holds: ASCII letters are lowered, U+0130
    (C4 B0) lowers to "i" followed by U+0307 (CC 87) and U+212A KELVIN SIGN
    (E2 84 AA) to "k"; these are the only non-ASCII characters whose
    lowercase form holds ASCII, and every other character is kept (its
    lowercase form has no ASCII byte either). *)
Fixpoint lower (s : string) : string :=
  match s with
  | EmptyString => EmptyString
  | String c s1 =>
      match s1 with
      | EmptyString => String (lower_ascii c) EmptyString
      | String c2 s2 =>
          if byte_is c 196 && byte_is c2 176 then
            String "i" (String (byte 204) (String (byte 135) (lower s2)))
          else
            match s2 with
            | String c3 s3 =>
                if byte_is c 226 && byte_is c2 132 && byte_is c3 170
                then String "k" (lower s3)
                else String (lower_ascii c) (lower s1)
            | EmptyString => String (lower_ascii c) (lower s1)
            end
      end
  end.

Fixpoint starts_with (p s : string) : bool :=
  match p, s with
  | EmptyString, _ => true
  | String c p', String d s' => Ascii.eqb c d && starts_with p' s'
  | String _ _, EmptyString => false
  end.

(** The characters of a string, [list(s)]: each lead byte with the
    continuation bytes (10xxxxxx) that follow it. *)
Definition is_cont (c : ascii) : bool :=
  let n := nat_of_ascii c in ((128 <=? n) && (n <=? 191))%nat.

Fixpoint utf8_chars (s : string) : list string :=
  match s with
  | EmptyString => []
  | String c s' =>
      match utf8_chars s' with
      | (String c1 _ as ch) :: rest =>
          if is_cont c1 then String c ch :: rest else String c EmptyString :: ch :: rest
      | chs => String c EmptyString :: chs
      end
  end.

(** Substring test [sub in s]. *)
Fixpoint contains (sub s : string) : bool :=
  starts_with sub s ||
  match s with
  | EmptyString => false
  | String _ s' => contains sub s'
  end.

(** ** Rule-Based Tip Engine: [get_fallback_tips] *)

Definition tip_rain := "Rain expected — skip sprinklers, save water and pump energy.".
Definition tip_dry := "Dry conditions — water in evening for efficiency.".
Definition tip_hot := "Hot day — set thermostat 3°F higher; use fans to cut A/C use.".
Definition tip_cool := "Cool weather — lower heat by 2°F and wear layers to save energy.".
Definition tip_mild := "Mild temps — open windows instead of running HVAC systems.".
Definition tip_windy := "High winds — expect good turbine output; delay noisy generator use.".
Definition tip_calm := "Calm conditions — run appliances during off-peak hours for savings.".

(** [day.get(k, d) or d] *)
Definition get_or (day : pyval) (k : string) (d : pyval) : res pyval :=
  v <- py_get day k d ;; Ok (py_or v d).

Definition get_fallback_tips (day : pyval) : res (list string) :=
  temp_max <- get_or day "tempmax" (PNum 70) ;;
  precip <- get_or day "precip" (PNum 0) ;;
  wind <- get_or day "windspeed" (PNum 0) ;;
  rainy <- py_gt precip (1 # 10) ;;
  let t1 := if rainy then tip_rain else tip_dry in
  hot <- py_gt temp_max 85 ;;
  t2 <- (if hot then Ok tip_hot
         else cool <- py_lt temp_max 60 ;;
              Ok (if cool then tip_cool else tip_mild)) ;;
  windy <- py_gt wind 15 ;;
  let t3 := if windy then tip_windy else tip_calm in
  Ok (firstn 3 [t1; t2; t3]).

(** ** [str(x)] *)

Fixpoint pos_digits (fuel : nat) (n : Z) (acc : string) : string :=
  match fuel with
  | O => acc
  | S fuel' =>
      let d := ascii_of_nat (48 + Z.to_nat (n mod 10))%nat in
      if (n <? 10)%Z then String d acc
      else pos_digits fuel' (n / 10)%Z (String d acc)
  end.

Definition z_str (n : Z) : string :=
  match n with
  | Z0 => "0"
  | Zpos p => pos_digits (Pos.size_nat p) n ""
  | Zneg p => "-" ++ pos_digits (Pos.size_nat p) (Zpos p) ""
  end.

(** Left-pad with zeros to [width] characters. *)
Fixpoint zpad (width : nat) (s : string) : string :=
  match width with
  | O => s
  | S w => if (String.length s <? S w)%nat then zpad w ("0" ++ s) else s
  end.

Fixpoint zeros (n : nat) : string :=
  match n with O => "" | S n' => "0" ++ zeros n' end.

(** [Some k] when [p = 10^k]. *)
Definition pow10_exp (p : positive) : option nat :=
  let k := (String.length (z_str (Zpos p)) - 1)%nat in
  if (10 ^ Z.of_nat k =? Zpos p)%Z then Some k else None.

(** [(m, t)] with [a = m * 10^t] and [m] not a multiple of 10. *)
Fixpoint strip_zeros (fuel : nat) (a : Z) (t : nat) : Z * nat :=
  match fuel with
  | O => (a, t)
  | S f => if ((0 <? a) && (a mod 10 =? 0))%Z then strip_zeros f (a / 10) (S t) else (a, t)
  end.

(** [repr(x)] of the float [x = n / 10^k] ([float_repr_style == 'short']):
    its shortest digits [D] with the decimal point at [decpt] ([x] is
    [0.D * 10^decpt]), in exponent notation when [decpt <= -4] or
    [decpt > 16], in fixed notation with at least one fractional digit
    otherwise. *)
Definition float_repr (n : Z) (k : nat) : string :=
  if (n =? 0)%Z then "0.0" else
  let sign := if (n <? 0)%Z then "-" else "" in
  let '(m, t) := strip_zeros (Pos.size_nat (Z.to_pos (Z.abs n))) (Z.abs n) 0 in
  let D := z_str m in
  let L := String.length D in
  let decpt := (Z.of_nat L + Z.of_nat t - Z.of_nat k)%Z in
  if ((decpt <=? -4) || (16 <? decpt))%Z then
    let e := (decpt - 1)%Z in
    sign ++ substring 0 1 D
    ++ (if (1 <? L)%nat then "." ++ substring 1 (L - 1) D else "")
    ++ "e" ++ (if (e <? 0)%Z then "-" else "+") ++ zpad 2 (z_str (Z.abs e))
  else if (decpt <=? 0)%Z then sign ++ "0." ++ zeros (Z.to_nat (- decpt)) ++ D
  else if (decpt <? Z.of_nat L)%Z then
    sign ++ substring 0 (Z.to_nat decpt) D ++ "."
    ++ substring (Z.to_nat decpt) (L - Z.to_nat decpt) D
  else sign ++ D ++ zeros (Z.to_nat decpt - L) ++ ".0".

(** [str] of a number: an int prints its digits, a float its [repr].  A
    denominator that is not a power of ten belongs to no value the code
    reads or computes; it prints as [n/d]. *)
Definition num_str (q : Q) : string :=
  if (Qden q =? 1)%positive then z_str (Qnum q)
  else match pow10_exp (Qden q) with
       | Some k => float_repr (Qnum q) k
       | None => z_str (Qnum q) ++ "/" ++ z_str (Zpos (Qden q))
       end.

(** [repr(x)]; for non-strings [str(x)] is [repr(x)].  A string inside a
    list or dict is shown between single quotes as it is; Python's choice
    of quotes and its escapes are not modelled, and no property below
    depends on them. *)
Fixpoint py_repr (x : pyval) : string :=
  match x with
  | PNone => "None"
  | PBool true => "True"
  | PBool false => "False"
  | PNum q => num_str q
  | PStr s => "'" ++ s ++ "'"
  | PList l => "[" ++ String.concat ", " (map py_repr l) ++ "]"
  | PDict kvs =>
      "{" ++ String.concat ", "
               (map (fun kv => "'" ++ fst kv ++ "': " ++ py_repr (snd kv)) kvs)
      ++ "}"
  end.

(** [str(x)] *)
Definition py_str (x : pyval) : string :=
  match x with
  | PStr s => s
  | _ => py_repr x
  end.

(** [x.lower()]: only strings have [.lower]. *)
Definition py_lower (x : pyval) : res string :=
  match x with
  | PStr s => Ok (lower s)
  | _ => Err AttributeError
  end.

(** ** Focus Override Engine: [_apply_focus_rules] *)

Definition focus_tokens : list string := ["thermostat"; "sprinklers"; "solar"].

(** [s in xs] for a list of strings. *)
Definition mem (s : string) (xs : list string) : bool := existsb (String.eqb s) xs.

(** The selector built from [focuses] (a list, or None) or else [focus]. *)
Definition selected (focus : pyval) (focuses : option (list pyval)) : list string :=
  match focuses with
  | Some ((_ :: _) as fs) =>
      filter (fun t => mem t focus_tokens) (map (fun f => lower (py_str f)) fs)
  | _ => if truthy focus then [lower (py_str focus)] else []
  end.

Definition focus_tip_rain := "Rain expected — skip sprinklers tomorrow to save water and energy.".
Definition focus_tip_hot := "Hot day tomorrow — set thermostat ~3°F higher and use fans to save A/C costs.".
Definition focus_tip_sunny := "Sunny tomorrow — prioritize solar-powered usage for appliances/EV charging.".

(** [tips] is the list passed by every caller, so [tips or []] is [tips]. *)
Definition _apply_focus_rules (day : pyval) (focus : pyval) (tips : list string)
    (focuses : option (list pyval)) : res (list string) :=
  let sel := selected focus focuses in
  match sel with
  | [] => Ok tips
  | _ :: _ =>
      d <- py_get day "description" PNone ;;
      desc <- py_lower (py_or d (PStr "")) ;;
      temp_max <- get_or day "tempmax" (PNum 70) ;;
      precip <- get_or day "precip" (PNum 0) ;;
      p1 <- (if mem "sprinklers" sel
             then rainy <- py_gt precip (1 # 10) ;;
                  Ok (if rainy then [focus_tip_rain] else [])
             else Ok []) ;;
      p2 <- (if mem "thermostat" sel
             then hot <- py_gt temp_max 85 ;;
                  Ok (if hot then [focus_tip_hot] else [])
             else Ok []) ;;
      let p3 := if mem "solar" sel && (contains "sunny" desc || contains "clear" desc)
                then [focus_tip_sunny] else [] in
      Ok (firstn 3 (p1 ++ p2 ++ p3 ++ tips))
  end.

(** ** LLM Tip Generator: [generate_tips_gemini] *)

Definition char_in (c : ascii) (cs : list ascii) : bool := existsb (Ascii.eqb c) cs.

Fixpoint lstrip (cs : list ascii) (s : string) : string :=
  match s with
  | EmptyString => EmptyString
  | String c s' => if char_in c cs then lstrip cs s' else s
  end.

Fixpoint str_rev (s : string) : string :=
  match s with
  | EmptyString => EmptyString
  | String c s' => str_rev s' ++ String c EmptyString
  end.

(** [s.strip(cs)] *)
Definition strip (cs : list ascii) (s : string) : string :=
  str_rev (lstrip cs (str_rev (lstrip cs s))).

(** The characters [s.strip()] removes are those of [str.isspace]: the
    ASCII bytes 09-0D and 1C-20, U+0085 and U+00A0 (two bytes in UTF-8),
    U+1680, U+2000-U+200A, U+2028, U+2029, U+202F, U+205F and U+3000 (three
    bytes). *)
Definition ws1 (c : ascii) : bool :=
  let n := nat_of_ascii c in (((9 <=? n) && (n <=? 13)) || ((28 <=? n) && (n <=? 32)))%nat.

Definition ws2 (c1 c2 : ascii) : bool :=
  byte_is c1 194 && (byte_is c2 133 || byte_is c2 160).

Definition ws3 (c1 c2 c3 : ascii) : bool :=
  let n3 := nat_of_ascii c3 in
  (byte_is c1 225 && byte_is c2 154 && byte_is c3 128) ||
  (byte_is c1 226 && byte_is c2 128 &&
     (((128 <=? n3) && (n3 <=? 138)) || (n3 =? 168) || (n3 =? 169) || (n3 =? 175))%nat) ||
  (byte_is c1 226 && byte_is c2 129 && byte_is c3 159) ||
  (byte_is c1 227 && byte_is c2 128 && byte_is c3 128).

(** [s.lstrip()] *)
Fixpoint lstrip_ws (s : string) : string :=
  match s with
  | EmptyString => EmptyString
  | String c s1 =>
      if ws1 c then lstrip_ws s1 else
      match s1 with
      | EmptyString => s
      | String c2 s2 =>
          if ws2 c c2 then lstrip_ws s2 else
          match s2 with
          | EmptyString => s
          | String c3 s3 => if ws3 c c2 c3 then lstrip_ws s3 else s
          end
      end
  end.

(** [s.lstrip()] read backwards: [rstrip_rev (str_rev s) = str_rev (s.rstrip())]. *)
Fixpoint rstrip_rev (r : string) : string :=
  match r with
  | EmptyString => EmptyString
  | String c r1 =>
      if ws1 c then rstrip_rev r1 else
      match r1 with
      | EmptyString => r
      | String c2 r2 =>
          if ws2 c2 c then rstrip_rev r2 else
          match r2 with
          | EmptyString => r
          | String c3 r3 => if ws3 c3 c2 c then rstrip_rev r3 else r
          end
      end
  end.

(** [s.strip()] *)
Definition strip_ws (s : string) : string := str_rev (rstrip_rev (str_rev (lstrip_ws s))).

(** Configuration read once at start-up. *)
Record gemini_config : Type := {
  GEMINI_API_KEY : string;
  genai_available : bool   (** [genai is not None] *)
}.

Section Gemini.

(** [json.loads]: [None] stands for a raised [JSONDecodeError]. *)
Variable json_loads : string -> option pyval.

(** The text the model answered with, after [(res.text or "").strip()]
    and [.strip("`\n ")]. *)
Definition llm_clean (text : option string) : string :=
  let t := strip_ws (match text with Some s => s | None => "" end) in
  strip ["`"%char; "010"%char; " "%char] t.

(** The body of the [try] block: [Ok (Some tips)] returns, [Ok None] falls
    through, [Err _] is swallowed by [except Exception]. *)
Definition gemini_attempt (day focus : pyval) (focuses : option (list pyval))
    (text : string) : res (option (list string)) :=
  match json_loads text with
  | None => Err ValueError
  | Some data =>
      out <- py_get data "suggestions" PNone ;;
      match out with
      | PList l =>
          if Nat.eqb (length l) 3
          then tips <- _apply_focus_rules day focus (map py_str l) focuses ;;
               Ok (Some tips)
          else Ok None
      | _ => Ok None
      end
  end.

(** [llm_call] is what lines 173 to 192 end in, outside the [try]: the
    exception raised by [genai.GenerativeModel], [model.generate_content]
    or reading [res.text], or else [getattr(res, "text", None)]. *)
Definition generate_tips_gemini (cfg : gemini_config) (llm_call : res (option string))
    (day focus : pyval) (focuses : option (list pyval)) : res (list string) :=
  if String.eqb (GEMINI_API_KEY cfg) "" || negb (genai_available cfg) then
    base <- get_fallback_tips day ;; _apply_focus_rules day focus base focuses
  else
    llm_text <- llm_call ;;
    match gemini_attempt day focus focuses (llm_clean llm_text) with
    | Ok (Some tips) => Ok tips
    | _ => base <- get_fallback_tips day ;; _apply_focus_rules day focus base focuses
    end.

End Gemini.

(** ** Mock Forecast Generator: [_mock_forecast_3_days] *)

(** Calendar date of a day number counted from 1970-01-01 (proleptic
    Gregorian calendar, as [datetime]). *)
Definition civil_from_days (z : Z) : Z * Z * Z :=
  let z := (z + 719468)%Z in
  let era := (z / 146097)%Z in
  let doe := (z - era * 146097)%Z in
  let yoe := ((doe - doe / 1460 + doe / 36524 - doe / 146096) / 365)%Z in
  let doy := (doe - (365 * yoe + yoe / 4 - yoe / 100))%Z in
  let mp := ((5 * doy + 2) / 153)%Z in
  let d := (doy - (153 * mp + 2) / 5 + 1)%Z in
  let m := (if (mp <? 10)%Z then mp + 3 else mp - 9)%Z in
  let y := (yoe + era * 400 + (if (m <=? 2)%Z then 1 else 0))%Z in
  (y, m, d).

(** [dt.strftime("%Y-%m-%d")], for the years 1000 to 9999 (below 1000
    the padding of [%Y] depends on the platform's C library). *)
Definition strftime_ymd (z : Z) : string :=
  let '(y, m, d) := civil_from_days z in
  zpad 4 (z_str y) ++ "-" ++ zpad 2 (z_str m) ++ "-" ++ zpad 2 (z_str d).

(** [round(x, n)] of an int or a float [x], [n >= 1]: the exact value of
    [x] rounded to [n] decimals, ties to even (CPython rounds the exact
    binary value through [_Py_dg_dtoa]); the result is the float of that
    decimal, held as [z / 10^n]. *)
Definition round_half_even (x : Q) : Z :=
  let f := Qfloor x in
  let r := (x - inject_Z f)%Q in
  if Qltb r (1 # 2) then f
  else if Qltb (1 # 2) r then (f + 1)%Z
  else if Z.even f then f else (f + 1)%Z.

Definition py_round (x : Q) (n : nat) : Q :=
  let scale := (10 ^ Z.of_nat n)%Z in
  Qmake (round_half_even (x * inject_Z scale)) (Z.to_pos scale).

(** [int(x)]: truncation toward zero. *)
Definition py_int (x : Q) : Z := Z.quot (Qnum x) (Zpos (Qden x)).

(** The exact value of a finite double. *)
Definition Q_of_float (x : float) : Q :=
  match Prim2SF x with
  | S754_finite s m e =>
      let n := if s then Zneg m else Zpos m in
      if (0 <=? e)%Z then inject_Z (n * 2 ^ e) else Qmake n (Pos.pow 2 (Z.to_pos (- e)))
  | _ => 0
  end.

Definition float_of_Z (z : Z) : float := PrimFloat.of_uint63 (Uint63.of_Z z).

(** The random source: [draw i] stands for the [i]-th call the loop makes
    to the [random] module.  [random.random()] is [(a * 2^26 + b) * 2^-53]
    for two Mersenne Twister words, hence a double [k / 2^53] with
    [0 <= k < 2^53]: the call returns [draw i mod 2^53] over [2^53].
    [random.uniform(a, b)] is [a + (b - a) * random()] in doubles, and
    [random.choice(seq)] is [seq[_randbelow(len(seq))]], an index in
    [[0, len(seq))]: [draw i mod len(seq)]. *)
Definition random (draw : nat -> Z) (i : nat) : float :=
  PrimFloat.mul (float_of_Z (draw i mod 2 ^ 53)%Z)
    (PrimFloat.div 1%float 9007199254740992%float).

Definition uniform (draw : nat -> Z) (i : nat) (a b : float) : float :=
  PrimFloat.add a (PrimFloat.mul (PrimFloat.sub b a) (random draw i)).

Definition choice {A} (draw : nat -> Z) (i : nat) (d : A) (xs : list A) : A :=
  nth (Z.to_nat (draw i mod Z.of_nat (length xs))) xs d.

Definition mock_descriptions : list string :=
  ["Clear skies"; "Partly cloudy"; "Light rain"; "Sunny"; "Scattered clouds"].

(** [max(0, p)] followed by [round(_, 2)]: [max] keeps the int [0] unless
    [p > 0], and [round(0, 2)] is the int [0]. *)
Definition mock_precip (p : float) : Q :=
  if PrimFloat.ltb 0%float p then py_round (Q_of_float p) 2 else 0.

(** One iteration of the loop, for [offset]; iteration [offset] makes
    calls [6 * (offset - 1)] to [6 * (offset - 1) + 5] to [random], in
    source order.  [today offset] is the day number (from 1970-01-01) of
    the local date [datetime.now()] reads in that iteration. *)
Definition mock_day (today : nat -> Z) (draw : nat -> Z) (offset : nat) : pyval :=
  let i := (6 * (offset - 1))%nat in
  let tempmin := PrimFloat.add 60%float (uniform draw i (-5)%float 5%float) in
  let tempmax := PrimFloat.add 75%float (uniform draw (i + 1) (-5)%float 10%float) in
  let humidity := PrimFloat.add 35%float (uniform draw (i + 2) 0%float 50%float) in
  let windspeed := PrimFloat.add 5%float (uniform draw (i + 3) 0%float 20%float) in
  let precip := uniform draw (i + 4) 0%float 0.5%float in
  PDict [("date", PStr (strftime_ymd (today offset + Z.of_nat offset)));
         ("tempmin", PNum (py_round (Q_of_float tempmin) 1));
         ("tempmax", PNum (py_round (Q_of_float tempmax) 1));
         ("humidity", PNum (inject_Z (py_int (Q_of_float humidity))));
         ("windspeed", PNum (py_round (Q_of_float windspeed) 1));
         ("precip", PNum (mock_precip precip));
         ("description", PStr (choice draw (i + 5) "" mock_descriptions))].

Definition _mock_forecast_3_days (today : nat -> Z) (draw : nat -> Z) : list pyval :=
  map (mock_day today draw) [1; 2; 3]%nat.

(** ** Forecast Normalizer: [get_weather_forecast] *)

(** What [requests.get(...)], [r.raise_for_status()] and [r.json()] end in. *)
Inductive response : Type :=
  (** a [RequestException] that is not an [HTTPError]: timeout, DNS,
      refused connection; with requests >= 2.27 also a body that is not
      JSON ([requests.exceptions.JSONDecodeError]) *)
| RequestFailed
  (** an [HTTPError], with [http_err.response.status_code] if any *)
| HttpFailed (status_code : option Z)
  (** the decoded JSON body *)
| Body (data : pyval).

(** Process configuration and the outside world. *)
Record weather_env : Type := {
  WEATHERAPI_KEY : string;
  (** the provider's answer to a request for [q] and [days] *)
  weatherapi : string -> Z -> response;
  (** the local day of the [datetime.now()] read in iteration [offset] of
      the mock loop, a date [datetime] holds with room for [offset] more
      days *)
  today : nat -> Z;
  (** the calls to the [random] module, see [random] *)
  draw : nat -> Z;
  (** the interpreter is Python 3.12 or later (slices are hashable) *)
  py_ge_3_12 : bool
}.

(** [status_code in (401, 403, 429)] *)
Definition denial_status (st : option Z) : bool :=
  match st with
  | Some c => (c =? 401)%Z || (c =? 403)%Z || (c =? 429)%Z
  | None => false
  end.

(** [xs[1:4]], as far as the values a JSON body holds go: a list gives
    its items 1 to 3, a string its code points 1 to 3 (each a string of
    one character); a number, a bool or None cannot be sliced
    ([TypeError]), and a dict is looked up with the slice as key, which
    is a [TypeError] (unhashable slice) before Python 3.12 and a
    [KeyError] from 3.12 on. *)
Definition py_slice_1_4 (py_ge_3_12 : bool) (x : pyval) : res (list pyval) :=
  match x with
  | PList l => Ok (firstn 3 (skipn 1 l))
  | PStr s => Ok (map PStr (firstn 3 (skipn 1 (utf8_chars s))))
  | PDict _ => Err (if py_ge_3_12 then KeyError else TypeError)
  | _ => Err TypeError
  end.

(** The loop body: one provider forecast day to a canonical day record. *)
Definition normalize_day (unit_group : string) (fd : pyval) : res pyval :=
  day <- py_get fd "day" (PDict []) ;;
  condition <- py_get day "condition" (PDict []) ;;
  vals <- (if String.eqb unit_group "us" then
             tempmin <- py_get day "mintemp_f" PNone ;;
             tempmax <- py_get day "maxtemp_f" PNone ;;
             windspeed <- py_get day "maxwind_mph" PNone ;;
             precip <- py_get day "totalprecip_in" PNone ;;
             Ok (tempmin, tempmax, windspeed, precip)
           else
             tempmin <- py_get day "mintemp_c" PNone ;;
             tempmax <- py_get day "maxtemp_c" PNone ;;
             windspeed <- py_get day "maxwind_mph" PNone ;;
             precip <- py_get day "totalprecip_in" PNone ;;
             Ok (tempmin, tempmax, windspeed, precip)) ;;
  let '(tempmin, tempmax, windspeed, precip) := vals in
  date <- py_get fd "date" PNone ;;
  humidity <- py_get day "avghumidity" PNone ;;
  description <- py_get condition "text" (PStr "Clear") ;;
  Ok (PDict [("date", date);
             ("tempmin", tempmin);
             ("tempmax", tempmax);
             ("humidity", humidity);
             ("windspeed", windspeed);
             ("precip", py_or precip (PNum 0));
             ("description", description)]).

(** Everything after the [try] block, on the decoded body. *)
Definition normalize_forecast (py_ge_3_12 : bool) (unit_group : string) (data : pyval)
    : res (list pyval) :=
  forecast <- py_get data "forecast" (PDict []) ;;
  forecast_days <- py_get forecast "forecastday" (PList []) ;;
  fds <- py_slice_1_4 py_ge_3_12 forecast_days ;;
  res_mapM (normalize_day unit_group) fds.

Definition get_weather_forecast (env : weather_env) (location_param : string)
    (unit_group : string) : res (list pyval) :=
  if String.eqb (WEATHERAPI_KEY env) "" then
    Ok (_mock_forecast_3_days (today env) (draw env))
  else
    match weatherapi env location_param 4 with
    | RequestFailed => Ok (_mock_forecast_3_days (today env) (draw env))
    | HttpFailed st =>
        if denial_status st then Ok (_mock_forecast_3_days (today env) (draw env))
        else Err (HTTPError st)
    | Body data => normalize_forecast (py_ge_3_12 env) unit_group data
    end.

(** ** Request Orchestrator: the [/api/tips] route ([tips]) *)

(** What the route's [except Exception] can catch: an exception of the
    code above, and werkzeug's [BadRequest] from
    [request.get_json(force=True)] on a body that is not JSON. *)
Inductive route_exn : Type :=
| Raised (e : exn)
| BadRequest.

(** The route's answer: [jsonify(payload), status], or the
    [jsonify({"error": str(e)}), 500] of the [except] branch. *)
Inductive tips_reply : Type :=
| Reply (status : Z) (payload : pyval)
| ServerError (e : route_exn).

Definition rres (A : Type) : Type := (route_exn + A)%type.

Definition rbind {A B} (m : rres A) (k : A -> rres B) : rres B :=
  match m with inl e => inl e | inr a => k a end.

Notation "x <-- m ;;; k" := (rbind m (fun x => k))
  (at level 61, m at next level, right associativity).

Definition lift {A} (r : res A) : rres A :=
  match r with Ok a => inr a | Err e => inl (Raised e) end.

(** [x is None] *)
Definition is_none (x : pyval) : bool := match x with PNone => true | _ => false end.

(** [d[k]]: a missing key is a [KeyError]; a non-dict is not subscriptable
    by a string. *)
Definition py_index (d : pyval) (k : string) : rres pyval :=
  match d with
  | PDict kvs => match dget kvs k with Some v => inr v | None => inl (Raised KeyError) end
  | _ => inl (Raised TypeError)
  end.

(** The [unit_group] handed to [get_weather_forecast], which only tests
    [unit_group == "us"]: a non-string JSON value is never equal to "us",
    and is passed on as "", which is not "us" either. *)
Definition unit_str (x : pyval) : string := match x with PStr s => s | _ => "" end.

(** The JSON value of "focuses" as [_apply_focus_rules] iterates it once
    [if focuses:] has found it truthy: a list gives its items, a string its
    characters (code points), an object its keys; a number or [True] is not
    iterable.  A
    falsy value is passed on as [None], which takes the same branch. *)
Definition focuses_arg (x : pyval) : res (option (list pyval)) :=
  if negb (truthy x) then Ok None else
  match x with
  | PList l => Ok (Some l)
  | PStr s => Ok (Some (map PStr (utf8_chars s)))
  | PDict kvs => Ok (Some (map (fun kv => PStr (fst kv)) kvs))
  | _ => Err TypeError
  end.

(** [generate_tips_gemini(d, focus, focuses)] on the request's values.
    When "focuses" is not iterable, every path of [generate_tips_gemini]
    that gets past the LLM call (made when the LLM is configured) ends in
    [_apply_focus_rules(day, focus, get_fallback_tips(day), focuses)] (the
    [TypeError] raised in the [try] is swallowed by its [except]), which
    raises at [for f in focuses] once [get_fallback_tips(day)] has been
    evaluated. *)
Definition route_tips (json_loads : string -> option pyval) (cfg : gemini_config)
    (llm_call : res (option string)) (day focus focuses : pyval) : res (list string) :=
  match focuses_arg focuses with
  | Ok fs => generate_tips_gemini json_loads cfg llm_call day focus fs
  | Err e =>
      _ <- (if String.eqb (GEMINI_API_KEY cfg) "" || negb (genai_available cfg)
            then Ok None else llm_call) ;;
      _ <- get_fallback_tips day ;; Err e
  end.

(** The [for d in forecast] loop; [llm_call i] is the outcome of the LLM
    call made for the [i]-th day. *)
Fixpoint route_days (json_loads : string -> option pyval) (cfg : gemini_config)
    (llm_call : nat -> res (option string)) (focus focuses : pyval) (i : nat)
    (forecast : list pyval) : rres (list pyval) :=
  match forecast with
  | [] => inr []
  | d :: rest =>
      suggestions <-- lift (route_tips json_loads cfg (llm_call i) d focus focuses) ;;;
      date <-- py_index d "date" ;;;
      tempmin <-- lift (py_get d "tempmin" PNone) ;;;
      tempmax <-- lift (py_get d "tempmax" PNone) ;;;
      humidity <-- lift (py_get d "humidity" PNone) ;;;
      windspeed <-- lift (py_get d "windspeed" PNone) ;;;
      precip <-- lift (py_get d "precip" (PNum 0)) ;;;
      description <-- lift (py_get d "description" (PStr "Clear")) ;;;
      let entry :=
        PDict [("date", date);
               ("weather", PDict [("date", date); ("tempmin", tempmin);
                                  ("tempmax", tempmax); ("humidity", humidity);
                                  ("windspeed", windspeed); ("precip", precip);
                                  ("description", description)]);
               ("suggestions", PList (map PStr suggestions))] in
      entries <-- route_days json_loads cfg llm_call focus focuses (S i) rest ;;;
      inr (entry :: entries)
  end.

Definition missing_location_error : pyval :=
  PDict [("error", PStr "Location or lat/lon required")].

(** The route on the request body: [None] when it is not JSON. *)
Definition tips (env : weather_env) (json_loads : string -> option pyval)
    (cfg : gemini_config) (llm_call : nat -> res (option string))
    (request_json : option pyval) : tips_reply :=
  let run : rres tips_reply :=
    j <-- (match request_json with Some j => inr j | None => inl BadRequest end) ;;;
    let body := py_or j (PDict []) in
    loc <-- lift (py_get body "location" (PStr "")) ;;;
    let location := strip_ws (py_str loc) in
    lat <-- lift (py_get body "lat" PNone) ;;;
    lon <-- lift (py_get body "lon" PNone) ;;;
    unit_group <-- lift (py_get body "unit_group" (PStr "us")) ;;;
    focus <-- lift (py_get body "focus" PNone) ;;;
    focuses <-- lift (py_get body "focuses" PNone) ;;;
    if (is_none lat || is_none lon) && String.eqb location "" then
      inr (Reply 400 missing_location_error)
    else
      let location_param :=
        if negb (is_none lat) && negb (is_none lon)
        then py_str lat ++ "," ++ py_str lon
        else location in
      forecast <-- lift (get_weather_forecast env location_param (unit_str unit_group)) ;;;
      days <-- route_days json_loads cfg llm_call focus focuses 0 forecast ;;;
      inr (Reply 200 (PDict [("location", PStr location_param);
                             ("unit_group", unit_group);
                             ("days", PList days)]))
  in
  match run with inl e => ServerError e | inr r => r end.

(** * Properties *)

(** ** Typing of the canonical day record *)

(** A field the engines compare is absent, falsy (hence defaulted) or a
    number. *)
Definition num_or_falsy (v : option pyval) : bool :=
  match v with
  | None => true
  | Some v => negb (truthy v) || match v with PNum _ | PBool _ => true | _ => false end
  end.

Definition numeric_fields (day : pyval) : bool :=
  match day with
  | PDict kvs =>
      num_or_falsy (dget kvs "tempmax") && num_or_falsy (dget kvs "precip")
      && num_or_falsy (dget kvs "windspeed")
  | _ => false
  end.

(** The description is absent, falsy or a string. *)
Definition desc_ok (day : pyval) : bool :=
  match day with
  | PDict kvs =>
      match dget kvs "description" with
      | None => true
      | Some (PStr _) => true
      | Some v => negb (truthy v)
      end
  | _ => false
  end.

(** A day record shaped as the data model's WeatherDay. *)
Definition well_typed_day (day : pyval) : bool := numeric_fields day && desc_ok day.

(** The number a field stands for after defaulting. *)
Definition day_num (day : pyval) (k : string) (d : Q) : Q :=
  match day with
  | PDict kvs =>
      match dget kvs k with
      | Some (PNum q) => if Qeq_bool q 0 then d else q
      | Some (PBool true) => 1
      | _ => d
      end
  | _ => d
  end.

(** The description after defaulting to the empty string. *)
Definition day_desc (day : pyval) : string :=
  match day with
  | PDict kvs => match dget kvs "description" with Some (PStr s) => s | _ => "" end
  | _ => ""
  end.

Lemma get_or_numeric :
  forall kvs k d, num_or_falsy (dget kvs k) = true ->
  exists v, get_or (PDict kvs) k (PNum d) = Ok v /\ py_num v = Ok (day_num (PDict kvs) k d).
Proof.
  intros kvs k d H. unfold get_or, py_get, day_num, num_or_falsy in *. simpl.
  destruct (dget kvs k) as [v|]; simpl.
  - unfold py_or. destruct v; simpl in *.
    + eexists; split; [reflexivity|]. reflexivity.
    + destruct b; eexists; split; reflexivity.
    + destruct (Qeq_bool q 0); eexists; split; reflexivity.
    + destruct (String.eqb s ""); simpl in H; [|discriminate].
      eexists; split; reflexivity.
    + destruct l; simpl in H; [|discriminate]. eexists; split; reflexivity.
    + destruct kvs0; simpl in H; [|discriminate]. eexists; split; reflexivity.
  - unfold py_or. eexists; split; [reflexivity|].
    destruct (truthy (PNum d)); reflexivity.
Qed.

Lemma desc_lower :
  forall kvs, desc_ok (PDict kvs) = true ->
  exists d, py_get (PDict kvs) "description" PNone = Ok d /\
            py_lower (py_or d (PStr "")) = Ok (lower (day_desc (PDict kvs))).
Proof.
  intros kvs H. unfold desc_ok, day_desc, py_get in *.
  destruct (dget kvs "description") as [v|].
  - exists v; split; [reflexivity|]. unfold py_or.
    destruct v as [| b | q | s | l | kvs'].
    + reflexivity.
    + destruct b; [discriminate|reflexivity].
    + simpl in *. apply negb_true_iff in H. rewrite H. reflexivity.
    + simpl. destruct (String.eqb s "") eqn:E; simpl; [|reflexivity].
      apply String.eqb_eq in E. subst. reflexivity.
    + destruct l; [reflexivity|discriminate].
    + destruct kvs'; [reflexivity|discriminate].
  - exists PNone; split; reflexivity.
Qed.

(** ** Rule-Based Tip Engine *)

Lemma numeric_fields_get_or :
  forall kvs, numeric_fields (PDict kvs) = true ->
  (exists t, get_or (PDict kvs) "tempmax" (PNum 70) = Ok t /\
             py_num t = Ok (day_num (PDict kvs) "tempmax" 70)) /\
  (exists p, get_or (PDict kvs) "precip" (PNum 0) = Ok p /\
             py_num p = Ok (day_num (PDict kvs) "precip" 0)) /\
  (exists w, get_or (PDict kvs) "windspeed" (PNum 0) = Ok w /\
             py_num w = Ok (day_num (PDict kvs) "windspeed" 0)).
Proof.
  intros kvs H. simpl in H.
  apply andb_prop in H as [H H3]. apply andb_prop in H as [H1 H2].
  split; [|split]; apply get_or_numeric; assumption.
Qed.

(** C8: on every WeatherDay-shaped record, the rule engine returns exactly
    three tips, one per rule category in the order irrigation, climate
    control, wind/appliance; for tempmax=90, precip=0, windspeed=5 they are
    the dry-conditions watering tip, the hot-day thermostat tip and the
    calm-conditions appliance tip. *)
Theorem rule_engine_three_tips :
  (forall day, well_typed_day day = true ->
   exists t1 t2 t3,
     get_fallback_tips day = Ok [t1; t2; t3] /\
     In t1 [tip_rain; tip_dry] /\
     In t2 [tip_hot; tip_cool; tip_mild] /\
     In t3 [tip_windy; tip_calm]) /\
  get_fallback_tips (PDict [("tempmax", PNum 90); ("precip", PNum 0); ("windspeed", PNum 5)])
    = Ok [tip_dry; tip_hot; tip_calm].
Proof.
  split; [|reflexivity].
  intros [| b | q | s | l | kvs] Hw; try discriminate.
  apply andb_prop in Hw as [Hn _].
  destruct (numeric_fields_get_or kvs Hn) as
    [(t & Et & Qt) [(p & Ep & Qp) (w & Ew & Qw)]].
  unfold get_fallback_tips. rewrite Et, Ep, Ew. cbn [bind].
  unfold py_gt, py_lt. rewrite Qt, Qp, Qw. cbn [bind].
  destruct (Qltb (1 # 10) (day_num (PDict kvs) "precip" 0)),
    (Qltb 85 (day_num (PDict kvs) "tempmax" 70)),
    (Qltb (day_num (PDict kvs) "tempmax" 70) 60),
    (Qltb 15 (day_num (PDict kvs) "windspeed" 0));
    cbn [bind firstn]; eexists _, _, _; (split; [reflexivity|]); simpl; tauto.
Qed.

Lemma rule_engine_three_tips_witness :
  well_typed_day (PDict [("tempmax", PNum 90); ("precip", PNum 0); ("windspeed", PNum 5)]) = true /\
  exists t1 t2 t3,
    get_fallback_tips (PDict [("tempmax", PNum 90); ("precip", PNum 0); ("windspeed", PNum 5)])
      = Ok [t1; t2; t3] /\
    In t1 [tip_rain; tip_dry] /\ In t2 [tip_hot; tip_cool; tip_mild] /\ In t3 [tip_windy; tip_calm].
Proof.
  split; [reflexivity|].
  apply (proj1 rule_engine_three_tips). reflexivity.
Defined.

(** C4 (failing input): a tempmax that is present and equal to 0 is
    replaced by the default 70 by [day.get("tempmax", 70) or 70], so the
    climate-control tip is the mild "open windows" tip, exactly as for a
    record without tempmax, and not the "lower heat" tip. *)
Theorem rule_engine_zero_tempmax :
  get_fallback_tips (PDict [("tempmax", PNum 0); ("precip", PNum 0); ("windspeed", PNum 0)])
    = Ok [tip_dry; tip_mild; tip_calm] /\
  get_fallback_tips (PDict [("precip", PNum 0); ("windspeed", PNum 0)])
    = Ok [tip_dry; tip_mild; tip_calm] /\
  get_fallback_tips (PDict [("tempmax", PNum (-1)); ("precip", PNum 0); ("windspeed", PNum 0)])
    = Ok [tip_dry; tip_cool; tip_calm].
Proof. repeat split; reflexivity. Qed.

(** ** Focus Override Engine *)

(** The prefix the spec describes: in the order sprinklers, thermostat,
    solar, one tip per selected focus whose weather condition holds. *)
Definition focus_prefix (sel : list string) (day : pyval) : list string :=
  (if mem "sprinklers" sel && Qltb (1 # 10) (day_num day "precip" 0)
   then [focus_tip_rain] else []) ++
  (if mem "thermostat" sel && Qltb 85 (day_num day "tempmax" 70)
   then [focus_tip_hot] else []) ++
  (if mem "solar" sel && (contains "sunny" (lower (day_desc day))
                          || contains "clear" (lower (day_desc day)))
   then [focus_tip_sunny] else []).

Lemma focus_prefix_length : forall sel day, (length (focus_prefix sel day) <= 3)%nat.
Proof.
  intros sel day. unfold focus_prefix.
  destruct (_ && _), (_ && _), (_ && _); simpl; lia.
Qed.

Lemma apply_focus_nonempty :
  forall day focus focuses tips,
  well_typed_day day = true -> selected focus focuses <> [] ->
  _apply_focus_rules day focus tips focuses
    = Ok (firstn 3 (focus_prefix (selected focus focuses) day ++ tips)).
Proof.
  intros day focus focuses tips Hw Hsel.
  destruct day as [| | | | | kvs]; try discriminate.
  apply andb_prop in Hw as [Hn Hd].
  destruct (numeric_fields_get_or kvs Hn) as [(t & Et & Qt) [(p & Ep & Qp) _]].
  destruct (desc_lower kvs Hd) as (d & Ed & Ld).
  unfold _apply_focus_rules, focus_prefix.
  destruct (selected focus focuses) as [|s0 sel']; [congruence|].
  rewrite Ed. cbn [bind]. rewrite Ld. cbn [bind]. rewrite Et, Ep. cbn [bind].
  unfold py_gt. rewrite Qt, Qp. cbn [bind].
  destruct (mem "sprinklers" (s0 :: sel')), (mem "thermostat" (s0 :: sel')),
    (mem "solar" (s0 :: sel')); cbn [andb];
  destruct (Qltb (1 # 10) (day_num (PDict kvs) "precip" 0)),
    (Qltb 85 (day_num (PDict kvs) "tempmax" 70)); reflexivity.
Qed.

(** C6: with a non-empty selector, the conditionally triggered prefix tips
    come first, in the order sprinklers, thermostat, solar, the combined
    list is cut to its first 3 entries, and every prefix tip survives the
    cut; with focus {solar} and the description "Sunny skies" the solar tip
    is prepended to the rule tips and the last rule tip is dropped. *)
Theorem focus_prefix_first :
  (forall day focus focuses tips,
   well_typed_day day = true -> selected focus focuses <> [] ->
   _apply_focus_rules day focus tips focuses
     = Ok (firstn 3 (focus_prefix (selected focus focuses) day ++ tips)%list) /\
   exists rest,
     _apply_focus_rules day focus tips focuses
       = Ok (focus_prefix (selected focus focuses) day ++ rest)%list) /\
  (base <- get_fallback_tips (PDict [("description", PStr "Sunny skies")]) ;;
   _apply_focus_rules (PDict [("description", PStr "Sunny skies")]) PNone base
     (Some [PStr "solar"]))
    = Ok [focus_tip_sunny; tip_dry; tip_mild].
Proof.
  split; [|reflexivity].
  intros day focus focuses tips Hw Hsel.
  rewrite (apply_focus_nonempty day focus focuses tips Hw Hsel).
  split; [reflexivity|].
  exists (firstn (3 - length (focus_prefix (selected focus focuses) day)) tips).
  rewrite firstn_app, firstn_all2 by apply focus_prefix_length. reflexivity.
Qed.

Lemma focus_prefix_first_witness :
  well_typed_day (PDict [("description", PStr "Sunny skies")]) = true /\
  selected PNone (Some [PStr "solar"]) <> [] /\
  _apply_focus_rules (PDict [("description", PStr "Sunny skies")]) PNone
    [tip_dry; tip_mild; tip_calm] (Some [PStr "solar"])
  = Ok (firstn 3 (focus_prefix (selected PNone (Some [PStr "solar"]))
                    (PDict [("description", PStr "Sunny skies")])
                  ++ [tip_dry; tip_mild; tip_calm])).
Proof.
  split; [reflexivity|]. split; [discriminate|].
  apply (proj1 focus_prefix_first); [reflexivity | discriminate].
Defined.

(** The tokens of [focuses] that the selector keeps. *)
Definition unrecognized (f : pyval) : Prop := mem (lower (py_str f)) focus_tokens = false.

Lemma filter_unrecognized :
  forall fs, Forall unrecognized fs ->
  filter (fun t => mem t focus_tokens) (map (fun f => lower (py_str f)) fs) = [].
Proof.
  intros fs Hall. induction Hall as [|g gs Hg Hgs IH]; [reflexivity|].
  cbn [map filter]. unfold unrecognized in Hg. rewrite Hg. exact IH.
Qed.

Lemma selected_unrecognized :
  forall focus fs, fs <> [] -> Forall unrecognized fs -> selected focus (Some fs) = [].
Proof.
  intros focus fs Hne Hall. destruct fs as [|f fs']; [congruence|].
  apply filter_unrecognized. exact Hall.
Qed.

Lemma selected_focuses :
  forall focus fs, fs <> [] -> selected focus (Some fs) = selected PNone (Some fs).
Proof. intros focus [|f fs] H; [congruence|reflexivity]. Qed.

Lemma mem_single_unrecognized :
  forall x t, mem x focus_tokens = false -> mem t focus_tokens = true -> mem t [x] = false.
Proof.
  intros x t Hx Ht. unfold mem in *. simpl in *.
  destruct (String.eqb t x) eqn:E; [|reflexivity].
  apply String.eqb_eq in E. subst. congruence.
Qed.

(** C5 (counterexample): the single unrecognized focus "lighting" does not
    behave as the empty selector on a base list of four tips: the selector
    ["lighting"] is not empty, so the list is cut to three. *)
Lemma focus_lighting_truncates :
  _apply_focus_rules (PDict []) (PStr "lighting") ["a"; "b"; "c"; "d"] None
    = Ok ["a"; "b"; "c"] /\
  _apply_focus_rules (PDict []) PNone ["a"; "b"; "c"; "d"] None
    = Ok ["a"; "b"; "c"; "d"].
Proof. split; reflexivity. Qed.

(** C5 (amended): a focuses list made only of unrecognized tokens behaves
    exactly as the empty selector and returns the base tips unchanged; a
    single unrecognized focus adds no prefix tip and returns the first 3
    base tips (the base tips unchanged when there are at most 3 of them),
    on a day whose description is absent, falsy or a string. *)
Theorem focus_unrecognized_ignored :
  (forall day focus tips fs,
   fs <> [] -> Forall unrecognized fs ->
   _apply_focus_rules day focus tips (Some fs) = Ok tips) /\
  (forall day focus tips focuses,
   (focuses = None \/ focuses = Some []) -> truthy focus = true ->
   unrecognized focus -> desc_ok day = true ->
   _apply_focus_rules day focus tips focuses = Ok (firstn 3 tips)).
Proof.
  split.
  - intros day focus tips fs Hne Hall.
    unfold _apply_focus_rules. rewrite (selected_unrecognized focus fs Hne Hall).
    reflexivity.
  - intros day focus tips focuses Hfs Ht Hu Hd.
    assert (Hsel : selected focus focuses = [lower (py_str focus)]).
    { destruct Hfs as [-> | ->]; unfold selected; rewrite Ht; reflexivity. }
    destruct day as [| | | | | kvs]; try discriminate.
    destruct (desc_lower kvs Hd) as (d & Ed & Ld).
    unfold _apply_focus_rules. rewrite Hsel.
    rewrite Ed. cbn [bind]. rewrite Ld. cbn [bind].
    unfold unrecognized in Hu.
    rewrite (mem_single_unrecognized _ "sprinklers" Hu eq_refl),
      (mem_single_unrecognized _ "thermostat" Hu eq_refl),
      (mem_single_unrecognized _ "solar" Hu eq_refl).
    reflexivity.
Qed.

Lemma focus_unrecognized_ignored_witness :
  _apply_focus_rules (PDict []) PNone ["a"; "b"; "c"; "d"] (Some [PStr "Lighting"])
    = Ok ["a"; "b"; "c"; "d"] /\
  _apply_focus_rules (PDict [("description", PStr "Clear")]) (PStr "lighting")
    ["a"; "b"; "c"] None = Ok (firstn 3 ["a"; "b"; "c"]).
Proof.
  split.
  - apply (proj1 focus_unrecognized_ignored);
      [discriminate | repeat constructor].
  - apply (proj2 focus_unrecognized_ignored);
      [left; reflexivity | reflexivity | reflexivity | reflexivity].
Defined.

(** ** Case of focus tokens *)

Lemma lower_ascii_idem : forall c, lower_ascii (lower_ascii c) = lower_ascii c.
Proof. intros [[] [] [] [] [] [] [] []]; reflexivity. Qed.

Lemma lower_ascii_byte_is :
  forall c n, (128 <= n)%nat -> byte_is (lower_ascii c) n = byte_is c n.
Proof.
  intros c n Hn. unfold lower_ascii, byte_is.
  destruct ((65 <=? nat_of_ascii c) && (nat_of_ascii c <=? 90))%nat eqn:E; [|reflexivity].
  apply andb_prop in E as [_ E]. apply Nat.leb_le in E.
  rewrite nat_ascii_embedding by lia.
  destruct (Nat.eqb_spec (nat_of_ascii c + 32) n), (Nat.eqb_spec (nat_of_ascii c) n); lia.
Qed.

(** The first byte, and the first two bytes, of a string. *)
Definition head_is (u : string) (n : nat) : bool :=
  match u with String b _ => byte_is b n | EmptyString => false end.

Definition head2_is (u : string) (n1 n2 : nat) : bool :=
  match u with String b (String b2 _) => byte_is b n1 && byte_is b2 n2 | _ => false end.

Lemma lower_cons_plain :
  forall a u,
  (byte_is a 196 = true -> head_is u 176 = false) ->
  (byte_is a 226 = true -> head2_is u 132 170 = false) ->
  lower (String a u) = String (lower_ascii a) (lower u).
Proof.
  intros a u H1 H2. destruct u as [|b [|b2 u2]]; cbn [lower]; [reflexivity| |].
  - destruct (byte_is a 196) eqn:Ea; cbn [andb]; [|reflexivity].
    specialize (H1 eq_refl). cbn [head_is] in H1. rewrite H1. reflexivity.
  - destruct (byte_is a 196 && byte_is b 176) eqn:Ei.
    + apply andb_prop in Ei as [Ea Eb]. specialize (H1 Ea). cbn in H1. congruence.
    + destruct (byte_is a 226) eqn:Ek; cbn [andb]; [|reflexivity].
      specialize (H2 eq_refl). cbn [head2_is] in H2. rewrite H2. reflexivity.
Qed.

Lemma lower_head_is :
  forall t n, (128 <= n)%nat -> n <> 196%nat -> n <> 226%nat ->
  head_is (lower t) n = head_is t n.
Proof.
  intros t n Hn H1 H2. destruct t as [|c [|c2 [|c3 s3]]]; cbn [lower head_is].
  - reflexivity.
  - apply lower_ascii_byte_is. exact Hn.
  - destruct (byte_is c 196 && byte_is c2 176) eqn:Ei; cbn [head_is].
    + apply andb_prop in Ei as [Ei _]. unfold byte_is in *.
      apply Nat.eqb_eq in Ei. rewrite Ei.
      apply Bool.eq_iff_eq_true. rewrite !Nat.eqb_eq. cbn. split; intros; lia.
    + apply lower_ascii_byte_is. exact Hn.
  - destruct (byte_is c 196 && byte_is c2 176) eqn:Ei; cbn [head_is].
    + apply andb_prop in Ei as [Ei _]. unfold byte_is in *.
      apply Nat.eqb_eq in Ei. rewrite Ei.
      apply Bool.eq_iff_eq_true. rewrite !Nat.eqb_eq. cbn. split; intros; lia.
    + destruct (byte_is c 226 && byte_is c2 132 && byte_is c3 170) eqn:Ek; cbn [head_is].
      * apply andb_prop in Ek as [Ek _]. apply andb_prop in Ek as [Ek _].
        unfold byte_is in *. apply Nat.eqb_eq in Ek. rewrite Ek.
        apply Bool.eq_iff_eq_true. rewrite !Nat.eqb_eq. cbn. split; intros; lia.
      * apply lower_ascii_byte_is. exact Hn.
Qed.

Lemma lower_cons_shape : forall c s, exists a u, lower (String c s) = String a u.
Proof.
  intros c [|c2 [|c3 s3]]; cbn [lower]; [eauto|destruct (_ && _); eauto|].
  destruct (_ && _); [eauto|]. destruct (_ && _ && _); eauto.
Qed.

Lemma lower_head2_is : forall t, head2_is (lower t) 132 170 = head2_is t 132 170.
Proof.
  intros t. destruct t as [|c [|c2 s2]]; [reflexivity|reflexivity|].
  destruct (byte_is c 196 && byte_is c2 176) eqn:Ei.
  - assert (H : lower (String c (String c2 s2))
                = String "i" (String (byte 204) (String (byte 135) (lower s2))))
      by (cbn [lower]; rewrite Ei; reflexivity).
    rewrite H. cbn [head2_is]. apply andb_prop in Ei as [Ei _]. unfold byte_is in *.
    apply Nat.eqb_eq in Ei. rewrite Ei. reflexivity.
  - destruct s2 as [|c3 s3].
    + assert (H : lower (String c (String c2 ""))
                  = String (lower_ascii c) (String (lower_ascii c2) ""))
        by (cbn [lower]; rewrite Ei; reflexivity).
      rewrite H. cbn [head2_is]. rewrite !lower_ascii_byte_is by lia. reflexivity.
    + destruct (byte_is c 226 && byte_is c2 132 && byte_is c3 170) eqn:Ek.
      * assert (H : lower (String c (String c2 (String c3 s3))) = String "k" (lower s3))
          by (cbn [lower]; rewrite Ei, Ek; reflexivity).
        rewrite H. cbn [head2_is]. apply andb_prop in Ek as [Ek _].
        apply andb_prop in Ek as [Ek _]. unfold byte_is in *. apply Nat.eqb_eq in Ek.
        rewrite Ek. destruct (lower s3); reflexivity.
      * assert (H : lower (String c (String c2 (String c3 s3)))
                    = String (lower_ascii c) (lower (String c2 (String c3 s3))))
          by (cbn [lower]; rewrite Ei, Ek; reflexivity).
        rewrite H.
        pose proof (lower_head_is (String c2 (String c3 s3)) 170) as Hh.
        destruct (lower_cons_shape c2 (String c3 s3)) as (a & u & Hu).
        rewrite Hu in *. cbn [head_is head2_is] in *.
        rewrite Hh by lia. rewrite lower_ascii_byte_is by lia. reflexivity.
Qed.

Lemma lower_idem : forall s, lower (lower s) = lower s.
Proof.
  intros s. remember (String.length s) as n eqn:Hn. revert s Hn.
  induction n as [n IH] using (well_founded_induction lt_wf). intros s Hn.
  assert (Hplain : forall a u, byte_is a 196 = false -> byte_is a 226 = false ->
                   lower (String a u) = String (lower_ascii a) (lower u))
    by (intros a u H1 H2; apply lower_cons_plain; congruence).
  destruct s as [|c [|c2 s2]]; [reflexivity| |].
  { cbn [lower]. rewrite lower_ascii_idem. reflexivity. }
  assert (Hgen : forall t, lower (lower t) = lower t ->
                 (byte_is c 196 = true -> head_is t 176 = false) ->
                 (byte_is c 226 = true -> head2_is t 132 170 = false) ->
                 lower (String (lower_ascii c) (lower t)) = String (lower_ascii c) (lower t)).
  { intros t Ht H1 H2. rewrite lower_cons_plain.
    - rewrite lower_ascii_idem, Ht. reflexivity.
    - intros H. rewrite lower_ascii_byte_is in H by lia.
      rewrite lower_head_is by lia. exact (H1 H).
    - intros H. rewrite lower_ascii_byte_is in H by lia.
      rewrite lower_head2_is. exact (H2 H). }
  simpl in Hn.
  destruct (byte_is c 196 && byte_is c2 176) eqn:Ei.
  - assert (H : lower (String c (String c2 s2))
                = String "i" (String (byte 204) (String (byte 135) (lower s2))))
      by (cbn [lower]; rewrite Ei; reflexivity).
    rewrite H, !Hplain by reflexivity.
    rewrite (IH (String.length s2)) by lia. reflexivity.
  - destruct s2 as [|c3 s3].
    + assert (H : lower (String c (String c2 ""))
                  = String (lower_ascii c) (lower (String c2 "")))
        by (cbn [lower]; rewrite Ei; reflexivity).
      rewrite H. apply Hgen.
      * apply (IH (String.length (String c2 ""))); simpl; lia.
      * intros H1. cbn [head_is]. rewrite H1 in Ei. exact Ei.
      * intros _. reflexivity.
    + destruct (byte_is c 226 && byte_is c2 132 && byte_is c3 170) eqn:Ek.
      * assert (H : lower (String c (String c2 (String c3 s3))) = String "k" (lower s3))
          by (cbn [lower]; rewrite Ei, Ek; reflexivity).
        rewrite H, Hplain by reflexivity.
        rewrite (IH (String.length s3)) by (cbn [String.length] in *; lia). reflexivity.
      * assert (H : lower (String c (String c2 (String c3 s3)))
                    = String (lower_ascii c) (lower (String c2 (String c3 s3))))
          by (cbn [lower]; rewrite Ei, Ek; reflexivity).
        rewrite H. apply Hgen.
        -- apply (IH (String.length (String c2 (String c3 s3)))); cbn [String.length] in *; lia.
        -- intros H1. cbn [head_is]. rewrite H1 in Ei. exact Ei.
        -- intros H2. cbn [head2_is]. rewrite H2 in Ek. exact Ek.
Qed.

Lemma truthy_lower : forall s, truthy (PStr (lower s)) = truthy (PStr s).
Proof. intros [|c s]; [reflexivity|]. destruct (lower_cons_shape c s) as (a & u & ->). reflexivity. Qed.

(** A focus token with its letters lowercased. *)
Definition lower_token (f : pyval) : pyval :=
  match f with PStr s => PStr (lower s) | _ => f end.

Lemma lower_str_token : forall f, lower (py_str (lower_token f)) = lower (py_str f).
Proof. intros []; try reflexivity. apply lower_idem. Qed.

Lemma selected_lower_focus :
  forall s focuses, selected (PStr s) focuses = selected (PStr (lower s)) focuses.
Proof.
  intros s focuses. unfold selected.
  destruct focuses as [[|f fs]|]; try reflexivity;
    rewrite truthy_lower; simpl; rewrite lower_idem; reflexivity.
Qed.

Lemma selected_lower_focuses :
  forall focus fs, selected focus (Some fs) = selected focus (Some (map lower_token fs)).
Proof.
  intros focus [|f fs]; [reflexivity|]. unfold selected. cbn [map].
  rewrite lower_str_token, map_map.
  rewrite (map_ext (fun x => lower (py_str (lower_token x))) (fun x => lower (py_str x)))
    by apply lower_str_token.
  reflexivity.
Qed.

(** C9: focus matching ignores letter case: a single focus string selects
    the same behaviour as its lowercase form, and a focuses list the same
    as the list of its lowercased tokens. *)
Theorem focus_case_insensitive :
  (forall day s tips focuses,
   _apply_focus_rules day (PStr s) tips focuses
   = _apply_focus_rules day (PStr (lower s)) tips focuses) /\
  (forall day focus tips fs,
   _apply_focus_rules day focus tips (Some fs)
   = _apply_focus_rules day focus tips (Some (map lower_token fs))).
Proof.
  split.
  - intros day s tips focuses. unfold _apply_focus_rules.
    rewrite <- selected_lower_focus. reflexivity.
  - intros day focus tips fs. unfold _apply_focus_rules.
    rewrite <- selected_lower_focuses. reflexivity.
Qed.

(** C10: a non-empty focuses list takes precedence over the single focus,
    which is never consulted; when all its tokens are unrecognized the base
    tips come back unchanged, whatever the single focus is. *)
Theorem focuses_take_precedence :
  forall day focus tips fs, fs <> [] ->
  _apply_focus_rules day focus tips (Some fs) = _apply_focus_rules day PNone tips (Some fs) /\
  (Forall unrecognized fs -> _apply_focus_rules day focus tips (Some fs) = Ok tips).
Proof.
  intros day focus tips fs Hne. split.
  - unfold _apply_focus_rules. rewrite (selected_focuses focus fs Hne). reflexivity.
  - intros Hall. unfold _apply_focus_rules.
    rewrite (selected_unrecognized focus fs Hne Hall). reflexivity.
Qed.

Lemma focuses_take_precedence_witness :
  _apply_focus_rules (PDict [("tempmax", PNum 90)]) (PStr "thermostat") ["a"; "b"; "c"]
    (Some [PStr "lighting"])
  = _apply_focus_rules (PDict [("tempmax", PNum 90)]) PNone ["a"; "b"; "c"]
      (Some [PStr "lighting"]) /\
  (Forall unrecognized [PStr "lighting"] ->
   _apply_focus_rules (PDict [("tempmax", PNum 90)]) (PStr "thermostat") ["a"; "b"; "c"]
     (Some [PStr "lighting"]) = Ok ["a"; "b"; "c"]).
Proof. apply focuses_take_precedence. discriminate. Defined.

(** ** LLM Tip Generator *)

(** The spec's rejection condition on the parsed LLM answer: no parse, no
    'suggestions' key (a non-object answer has no keys), or a 'suggestions'
    value that is not a list of exactly 3 elements. *)
Definition llm_output_rejected (parsed : option pyval) : bool :=
  match parsed with
  | Some (PDict kvs) =>
      match dget kvs "suggestions" with
      | Some (PList l) => negb (Nat.eqb (length l) 3)
      | _ => true
      end
  | _ => true
  end.

(** C3: whatever [json.loads] does, when the cleaned LLM text is rejected
    the generator returns exactly what the rule engine followed by the focus
    override engine returns on the same day and focus, once the LLM call
    has returned its text. *)
Theorem llm_malformed_falls_back :
  forall (json_loads : string -> option pyval) cfg text day focus focuses,
  llm_output_rejected (json_loads (llm_clean text)) = true ->
  generate_tips_gemini json_loads cfg (Ok text) day focus focuses
  = (base <- get_fallback_tips day ;; _apply_focus_rules day focus base focuses).
Proof.
  intros json_loads cfg text day focus focuses H. unfold generate_tips_gemini.
  destruct (_ || _); [reflexivity|]. cbn [bind].
  unfold gemini_attempt. destruct (json_loads (llm_clean text)) as [data|]; [|reflexivity].
  destruct data as [| | | | | kvs]; try reflexivity.
  simpl in H. cbn [py_get bind].
  destruct (dget kvs "suggestions") as [[| | | | l |]|]; try reflexivity.
  apply negb_true_iff in H. rewrite H. reflexivity.
Qed.

Lemma llm_malformed_falls_back_witness :
  generate_tips_gemini (fun _ => None)
    {| GEMINI_API_KEY := "key"; genai_available := true |}
    (Ok (Some "```json {not json ```")) (PDict [("tempmax", PNum 90)]) (PStr "thermostat") None
  = (base <- get_fallback_tips (PDict [("tempmax", PNum 90)]) ;;
     _apply_focus_rules (PDict [("tempmax", PNum 90)]) (PStr "thermostat") base None).
Proof. apply llm_malformed_falls_back. reflexivity. Defined.

(** ** Forecast Normalizer: unit systems *)

(** A day record without its two temperature fields. *)
Definition drop_temps (d : pyval) : pyval :=
  match d with
  | PDict kvs =>
      PDict (filter (fun kv => negb (String.eqb (fst kv) "tempmin"
                                     || String.eqb (fst kv) "tempmax")) kvs)
  | _ => d
  end.

Lemma normalize_day_units :
  forall u fd,
  res_map drop_temps (normalize_day "us" fd) = res_map drop_temps (normalize_day u fd).
Proof.
  intros u fd. unfold normalize_day.
  destruct (String.eqb u "us") eqn:E.
  - apply String.eqb_eq in E. subst. reflexivity.
  - cbn [String.eqb].
    destruct fd as [| | | | | kvs]; try reflexivity. cbn [py_get bind].
    destruct (match dget kvs "day" with Some v => v | None => PDict [] end)
      as [| | | | | dk]; try reflexivity.
    cbn [py_get bind].
    destruct (match dget dk "condition" with Some v => v | None => PDict [] end)
      as [| | | | | ck]; reflexivity.
Qed.

Lemma res_mapM_map_eq :
  forall {A B C} (f1 f2 : A -> res B) (g : B -> C) xs,
  (forall x, res_map g (f1 x) = res_map g (f2 x)) ->
  res_map (map g) (res_mapM f1 xs) = res_map (map g) (res_mapM f2 xs).
Proof.
  intros A B C f1 f2 g xs Hf. induction xs as [|x xs IH]; [reflexivity|].
  simpl. specialize (Hf x).
  destruct (f1 x) as [b1|e1], (f2 x) as [b2|e2]; simpl in Hf; try discriminate.
  - injection Hf as Hb.
    destruct (res_mapM f1 xs) as [l1|e1], (res_mapM f2 xs) as [l2|e2];
      simpl in IH |- *; try discriminate.
    + injection IH as Hl. rewrite Hb, Hl. reflexivity.
    + exact IH.
  - injection Hf as He. simpl. rewrite He. reflexivity.
Qed.

(** C7: for every provider answer, location and clock, the forecast under
    unit system "us" and under any other unit system agree on everything
    but tempmin and tempmax, in particular on windspeed and precip (and
    both fail alike). *)
Theorem units_only_affect_temperatures :
  forall env location_param unit_group,
  res_map (map drop_temps) (get_weather_forecast env location_param "us")
  = res_map (map drop_temps) (get_weather_forecast env location_param unit_group).
Proof.
  intros env loc u. unfold get_weather_forecast.
  destruct (String.eqb (WEATHERAPI_KEY env) ""); [reflexivity|].
  destruct (weatherapi env loc 4) as [| st | data]; try reflexivity.
  unfold normalize_forecast.
  destruct (py_get data "forecast" (PDict [])) as [f|e]; [|reflexivity]. cbn [bind].
  destruct (py_get f "forecastday" (PList [])) as [fds|e]; [|reflexivity]. cbn [bind].
  destruct (py_slice_1_4 (py_ge_3_12 env) fds) as [l|e]; [|reflexivity]. cbn [bind].
  apply res_mapM_map_eq, normalize_day_units.
Qed.

(** ** Forecast Normalizer: provider failures and body shapes *)

Definition dget_or (kvs : list (string * pyval)) (k : string) (d : pyval) : pyval :=
  match dget kvs k with Some v => v | None => d end.

(** A forecast day the loop body can read: a dict whose "day" (default {})
    is a dict whose "condition" (default {}) is a dict. *)
Definition fd_shaped (fd : pyval) : bool :=
  match fd with
  | PDict kvs =>
      match dget_or kvs "day" (PDict []) with
      | PDict dk =>
          match dget_or dk "condition" (PDict []) with PDict _ => true | _ => false end
      | _ => false
      end
  | _ => false
  end.

(** A body the normalizer reads without raising. *)
Definition body_shaped (data : pyval) : bool :=
  match data with
  | PDict kvs =>
      match dget_or kvs "forecast" (PDict []) with
      | PDict f =>
          match dget_or f "forecastday" (PList []) with
          | PList l => forallb fd_shaped (firstn 3 (skipn 1 l))
          | PStr s => (length (utf8_chars s) <=? 1)%nat
          | _ => false
          end
      | _ => false
      end
  | _ => false
  end.

(** The provider's forecast-day list, as the normalizer reads it. *)
Definition forecast_day_list (data : pyval) : option (list pyval) :=
  match data with
  | PDict kvs =>
      match dget_or kvs "forecast" (PDict []) with
      | PDict f =>
          match dget_or f "forecastday" (PList []) with
          | PList l => Some l
          | _ => None
          end
      | _ => None
      end
  | _ => None
  end.

(** An exception other than an [HTTPError]. *)
Definition not_http {A} (r : res A) : Prop :=
  forall st, r <> Err (HTTPError st).

Lemma normalize_day_err :
  forall u fd, is_err (normalize_day u fd) = negb (fd_shaped fd) /\ not_http (normalize_day u fd).
Proof.
  intros u fd. unfold normalize_day, fd_shaped, dget_or, not_http.
  destruct fd as [| | | | | kvs]; try (split; [reflexivity | discriminate]).
  cbn [py_get bind].
  destruct (match dget kvs "day" with Some v => v | None => PDict [] end)
    as [| | | | | dk]; try (split; [reflexivity | discriminate]).
  cbn [py_get bind].
  destruct (match dget dk "condition" with Some v => v | None => PDict [] end)
    as [| | | | | ck]; destruct (String.eqb u "us");
    (split; [reflexivity | discriminate]).
Qed.

Lemma res_mapM_err :
  forall {A B} (f : A -> res B) xs,
  is_err (res_mapM f xs) = existsb (fun x => is_err (f x)) xs.
Proof.
  intros A B f xs. induction xs as [|x xs IH]; [reflexivity|].
  simpl. destruct (f x); simpl; [|reflexivity].
  rewrite <- IH. destruct (res_mapM f xs); reflexivity.
Qed.

Lemma res_mapM_not_http :
  forall {A B} (f : A -> res B) xs,
  (forall x, not_http (f x)) -> not_http (res_mapM f xs).
Proof.
  intros A B f xs Hf. unfold not_http in *.
  induction xs as [|x xs IH]; intros st; [discriminate|].
  simpl. specialize (Hf x st). destruct (f x) as [b|e]; simpl;
    [| intros He; injection He as ->; apply Hf; reflexivity].
  specialize (IH st). destruct (res_mapM f xs); simpl; [discriminate | exact IH].
Qed.

Lemma res_mapM_length :
  forall {A B} (f : A -> res B) xs ys, res_mapM f xs = Ok ys -> length ys = length xs.
Proof.
  intros A B f xs. induction xs as [|x xs IH]; intros ys H.
  - injection H as <-. reflexivity.
  - simpl in H. destruct (f x); [|discriminate]. simpl in H.
    destruct (res_mapM f xs) as [zs|] eqn:E; [|discriminate].
    injection H as <-. simpl. f_equal. apply IH. reflexivity.
Qed.

Lemma existsb_negb_forallb :
  forall {A} (p : A -> bool) xs, existsb (fun x => negb (p x)) xs = negb (forallb p xs).
Proof.
  intros A p xs. induction xs as [|x xs IH]; [reflexivity|].
  simpl. rewrite IH. destruct (p x); reflexivity.
Qed.

Lemma existsb_ext_eq :
  forall {A} (p q : A -> bool) xs, (forall x, p x = q x) -> existsb p xs = existsb q xs.
Proof.
  intros A p q xs H. induction xs as [|x xs IH]; [reflexivity|].
  simpl. rewrite H, IH. reflexivity.
Qed.

Lemma normalize_forecast_err :
  forall b u data,
  is_err (normalize_forecast b u data) = negb (body_shaped data) /\
  not_http (normalize_forecast b u data).
Proof.
  intros b u data. unfold normalize_forecast, body_shaped, dget_or.
  destruct data as [| | | | | kvs]; try (split; [reflexivity | intros st; discriminate]).
  cbn [py_get bind].
  destruct (match dget kvs "forecast" with Some v => v | None => PDict [] end)
    as [| | | | | fk]; try (split; [reflexivity | intros st; discriminate]).
  cbn [py_get bind].
  destruct (match dget fk "forecastday" with Some v => v | None => PList [] end)
    as [| | | s | l | dk]; try (split; [reflexivity | intros st; discriminate]).
  - cbn [py_slice_1_4 bind]. split.
    + destruct (utf8_chars s) as [|c1 [|c2 cs]]; reflexivity.
    + apply res_mapM_not_http. intros x. apply normalize_day_err.
  - cbn [py_slice_1_4 bind]. split.
    + rewrite res_mapM_err, <- existsb_negb_forallb.
      apply existsb_ext_eq. intros x. apply normalize_day_err.
    + apply res_mapM_not_http. intros x. apply normalize_day_err.
  - cbn [py_slice_1_4]. split; [destruct b; reflexivity|].
    intros st. destruct b; discriminate.
Qed.

(** A configured environment whose provider always gives [ans]. *)
Definition env_with (ans : response) : weather_env :=
  {| WEATHERAPI_KEY := "key"; weatherapi := fun _ _ => ans;
     today := fun _ => 20742%Z; draw := fun _ => 0%Z; py_ge_3_12 := true |}.

(** C2 (counterexample): with a credential configured and a successful
    provider call (no HTTP error at all) whose JSON body is an array, the
    normalizer raises: [data.get] is an [AttributeError]. *)
Lemma provider_array_body_raises :
  weatherapi (env_with (Body (PList []))) "Paris" 4 = Body (PList []) /\
  get_weather_forecast (env_with (Body (PList []))) "Paris" "us" = Err AttributeError.
Proof. split; reflexivity. Qed.

(** C2 (amended): with a credential configured, a transport failure and
    the HTTP statuses 401, 403 and 429 give the mock forecast; any other
    HTTP error is raised as is; a successful call raises exactly when its
    body is not shaped as the normalizer reads it, and then never with an
    HTTP error. *)
Theorem provider_failures :
  forall env location_param unit_group,
  WEATHERAPI_KEY env <> "" ->
  match weatherapi env location_param 4 with
  | RequestFailed =>
      get_weather_forecast env location_param unit_group
      = Ok (_mock_forecast_3_days (today env) (draw env))
  | HttpFailed st =>
      get_weather_forecast env location_param unit_group
      = if denial_status st then Ok (_mock_forecast_3_days (today env) (draw env))
        else Err (HTTPError st)
  | Body data =>
      is_err (get_weather_forecast env location_param unit_group) = negb (body_shaped data) /\
      not_http (get_weather_forecast env location_param unit_group)
  end.
Proof.
  intros env loc u Hkey. unfold get_weather_forecast.
  apply String.eqb_neq in Hkey. rewrite Hkey.
  destruct (weatherapi env loc 4) as [| st | data]; try reflexivity.
  apply normalize_forecast_err.
Qed.

Lemma provider_failures_witness :
  get_weather_forecast (env_with (HttpFailed (Some 500%Z))) "Paris" "us"
    = Err (HTTPError (Some 500%Z)) /\
  get_weather_forecast (env_with (HttpFailed (Some 429%Z))) "Paris" "us"
    = Ok (_mock_forecast_3_days (fun _ => 20742%Z) (fun _ => 0%Z)).
Proof.
  split.
  - exact (provider_failures (env_with (HttpFailed (Some 500%Z))) "Paris" "us" ltac:(discriminate)).
  - exact (provider_failures (env_with (HttpFailed (Some 429%Z))) "Paris" "us" ltac:(discriminate)).
Defined.

(** ** Forecast Normalizer: the three days *)

Lemma slice_length :
  forall b x l, py_slice_1_4 b x = Ok l -> (length l <= 3)%nat.
Proof.
  intros b [| | | s | l' | kvs] l H; unfold py_slice_1_4 in H; try discriminate.
  - assert (E : map PStr (firstn 3 (skipn 1 (utf8_chars s))) = l) by congruence.
    subst l. rewrite length_map. apply firstn_le_length.
  - assert (E : firstn 3 (skipn 1 l') = l) by congruence.
    subst l. apply firstn_le_length.
Qed.

(** An environment without a weather-provider credential. *)
Definition env_offline : weather_env :=
  {| WEATHERAPI_KEY := ""; weatherapi := fun _ _ => RequestFailed;
     today := fun _ => 20742%Z; draw := fun _ => 0%Z; py_ge_3_12 := true |}.

(** A provider body listing only today and the next two days. *)
Definition three_entry_body : pyval :=
  PDict [("forecast", PDict [("forecastday", PList [PDict []; PDict []; PDict []])])].

(** C1 (failing input): with a credential configured, a provider whose
    forecast-day list has three entries (today and the next two days)
    yields two day records, not the three that the docstring "next 3 days
    (tomorrow + 2)", the comment "take next 3 days" and the mock path,
    which always gives three, stand for. *)
Theorem short_provider_list_two_days :
  res_map (@length pyval) (get_weather_forecast (env_with (Body three_entry_body)) "Paris" "us")
  = Ok 2%nat /\
  (forall t dr, length (_mock_forecast_3_days t dr) = 3%nat).
Proof. split; reflexivity. Qed.

(** * Further properties of the code *)

(** Peel the binds of an equation [m >>= k = Ok _] one at a time. *)
Ltac res_inv H :=
  repeat match type of H with
  | bind ?m _ = Ok _ =>
      let E := fresh "E" in
      destruct m eqn:E; cbn [bind] in H; [|discriminate H]
  end.

(** ** Tip lists have three entries *)

Lemma fallback_tips_length :
  forall day l, get_fallback_tips day = Ok l -> length l = 3%nat.
Proof.
  intros day l H. unfold get_fallback_tips in H. res_inv H.
  injection H as <-. reflexivity.
Qed.

Lemma apply_focus_length :
  forall day focus tips focuses l,
  length tips = 3%nat -> _apply_focus_rules day focus tips focuses = Ok l ->
  length l = 3%nat.
Proof.
  intros day focus tips focuses l Hlen H. unfold _apply_focus_rules in H.
  destruct (selected focus focuses) as [|s sel].
  - injection H as <-. exact Hlen.
  - res_inv H.
    match type of H with
    | Ok (firstn 3 ?xs) = Ok l =>
        assert (Hl : l = firstn 3 xs) by congruence
    end.
    subst l. rewrite length_firstn, !length_app, Hlen. lia.
Qed.

Lemma generate_tips_length :
  forall json_loads cfg text day focus focuses l,
  generate_tips_gemini json_loads cfg text day focus focuses = Ok l -> length l = 3%nat.
Proof.
  intros json_loads cfg text day focus focuses l H. unfold generate_tips_gemini in H.
  assert (Hfb : (base <- get_fallback_tips day ;; _apply_focus_rules day focus base focuses)
                = Ok l -> length l = 3%nat).
  { intros H'. res_inv H'.
    exact (apply_focus_length _ _ _ _ _ (fallback_tips_length _ _ E) H'). }
  destruct (_ || _); [exact (Hfb H)|].
  destruct text as [t|e]; cbn [bind] in H; [|discriminate].
  destruct (gemini_attempt json_loads day focus focuses (llm_clean t))
    as [[tips|]|e] eqn:Ea; try exact (Hfb H).
  injection H as <-. unfold gemini_attempt in Ea.
  destruct (json_loads (llm_clean t)) as [data|]; [|discriminate].
  res_inv Ea.
  destruct a as [| | | | l' |]; try discriminate.
  destruct (Nat.eqb (length l') 3) eqn:El; [|discriminate].
  res_inv Ea. injection Ea as <-.
  apply (apply_focus_length day focus (map py_str l') focuses); [|exact E0].
  rewrite length_map. apply Nat.eqb_eq. exact El.
Qed.


(** X: every tip list the LLM tip generator returns, from the LLM or from
    the rule engine, with or without focus overrides, has exactly 3 tips. *)
Theorem generate_tips_three :
  forall json_loads cfg text day focus focuses l,
  generate_tips_gemini json_loads cfg text day focus focuses = Ok l -> length l = 3%nat.
Proof. exact generate_tips_length. Qed.

(** ** The [/api/tips] route on a JSON object *)

(** The stripped "location" of a request body. *)
Definition body_location (kvs : list (string * pyval)) : string :=
  strip_ws (py_str (dget_or kvs "location" (PStr ""))).

(** The validation of line 218: [(lat is None or lon is None) and not location]. *)
Definition rejected (kvs : list (string * pyval)) : bool :=
  (is_none (dget_or kvs "lat" PNone) || is_none (dget_or kvs "lon" PNone))
  && String.eqb (body_location kvs) "".

(** The string handed to the forecast: the coordinates when both are given. *)
Definition location_param_of (kvs : list (string * pyval)) : string :=
  if negb (is_none (dget_or kvs "lat" PNone)) && negb (is_none (dget_or kvs "lon" PNone))
  then py_str (dget_or kvs "lat" PNone) ++ "," ++ py_str (dget_or kvs "lon" PNone)
  else body_location kvs.

(** The route after validation has passed. *)
Definition answer (env : weather_env) (json_loads : string -> option pyval)
    (cfg : gemini_config) (llm_call : nat -> res (option string))
    (kvs : list (string * pyval)) : tips_reply :=
  match
    (forecast <-- lift (get_weather_forecast env (location_param_of kvs)
                          (unit_str (dget_or kvs "unit_group" (PStr "us")))) ;;;
     days <-- route_days json_loads cfg llm_call (dget_or kvs "focus" PNone)
                (dget_or kvs "focuses" PNone) 0 forecast ;;;
     inr (Reply 200 (PDict [("location", PStr (location_param_of kvs));
                            ("unit_group", dget_or kvs "unit_group" (PStr "us"));
                            ("days", PList days)])))
  with inl e => ServerError e | inr r => r end.

Lemma py_or_dict : forall kvs, py_or (PDict kvs) (PDict []) = PDict kvs.
Proof. intros [|kv kvs]; reflexivity. Qed.

Lemma tips_dict :
  forall env json_loads cfg llm_call kvs,
  tips env json_loads cfg llm_call (Some (PDict kvs))
  = if rejected kvs then Reply 400 missing_location_error
    else answer env json_loads cfg llm_call kvs.
Proof.
  intros env json_loads cfg llm_call kvs. unfold tips. cbn [rbind].
  rewrite py_or_dict. cbn [lift py_get rbind].
  unfold rejected, answer, location_param_of, body_location, dget_or.
  destruct ((_ || _) && _); reflexivity.
Qed.

Lemma answer_status :
  forall env json_loads cfg llm_call kvs st p,
  answer env json_loads cfg llm_call kvs = Reply st p -> st = 200%Z.
Proof.
  intros env json_loads cfg llm_call kvs st p H. unfold answer in H.
  destruct (lift _) as [e|forecast]; cbn [rbind] in H; [discriminate|].
  destruct (route_days _ _ _ _ _ _ _) as [e|days]; cbn [rbind] in H; [discriminate|].
  congruence.
Qed.

(** X: a request that is not JSON is a server error; a falsy JSON body
    ([null], [0], [""], [[]], [{}]) is answered 400 "Location or lat/lon
    required"; a truthy JSON body that is not an object is a server error
    raised by [body.get]. *)
Theorem tips_non_object_bodies :
  forall env json_loads cfg llm_call,
  tips env json_loads cfg llm_call None = ServerError BadRequest /\
  (forall j, truthy j = false ->
   tips env json_loads cfg llm_call (Some j) = Reply 400 missing_location_error) /\
  (forall j, truthy j = true -> (forall kvs, j <> PDict kvs) ->
   tips env json_loads cfg llm_call (Some j) = ServerError (Raised AttributeError)).
Proof.
  intros env json_loads cfg llm_call. split; [reflexivity|]. split.
  - intros j Hj. unfold tips. cbn [rbind].
    assert (E : py_or j (PDict []) = PDict []) by (unfold py_or; rewrite Hj; reflexivity).
    rewrite E. reflexivity.
  - intros j Hj Hd. unfold tips. cbn [rbind].
    assert (E : py_or j (PDict []) = j) by (unfold py_or; rewrite Hj; reflexivity).
    rewrite E. destruct j as [| | | | | kvs]; try reflexivity. exfalso. exact (Hd kvs eq_refl).
Qed.

Lemma tips_non_object_bodies_witness :
  tips env_offline (fun _ => None) {| GEMINI_API_KEY := ""; genai_available := false |}
    (fun _ => Ok None) (Some (PList [])) = Reply 400 missing_location_error /\
  tips env_offline (fun _ => None) {| GEMINI_API_KEY := ""; genai_available := false |}
    (fun _ => Ok None) (Some (PNum 1)) = ServerError (Raised AttributeError).
Proof.
  split.
  - apply (proj1 (proj2 (tips_non_object_bodies env_offline (fun _ => None)
      {| GEMINI_API_KEY := ""; genai_available := false |} (fun _ => Ok None)))).
    reflexivity.
  - apply (proj2 (proj2 (tips_non_object_bodies env_offline (fun _ => None)
      {| GEMINI_API_KEY := ""; genai_available := false |} (fun _ => Ok None)))).
    + reflexivity.
    + intros kvs. discriminate.
Defined.

(** X: on a JSON object, the route answers 400 exactly when lat or lon is
    missing (or null) and the location, converted with [str] and stripped
    of whitespace, is empty, and its 400 payload is then the
    "Location or lat/lon required" error. *)
Theorem tips_validation :
  forall env json_loads cfg llm_call kvs p,
  tips env json_loads cfg llm_call (Some (PDict kvs)) = Reply 400 p
  <-> (rejected kvs = true /\ p = missing_location_error).
Proof.
  intros env json_loads cfg llm_call kvs p. rewrite tips_dict. split.
  - destruct (rejected kvs).
    + intros H. injection H as <-. split; reflexivity.
    + intros H. apply answer_status in H. discriminate.
  - intros [-> ->]. reflexivity.
Qed.

(** A location made only of whitespace: U+001F, a no-break space U+00A0
    and two spaces. *)
Definition blank_location : string :=
  String (byte 31) (String (byte 194) (String (byte 160) "  ")).

Lemma tips_validation_witness :
  tips env_offline (fun _ => None) {| GEMINI_API_KEY := ""; genai_available := false |}
    (fun _ => Ok None) (Some (PDict [("location", PStr blank_location); ("lat", PNum 1)]))
  = Reply 400 missing_location_error.
Proof.
  apply (proj2 (tips_validation env_offline (fun _ => None)
    {| GEMINI_API_KEY := ""; genai_available := false |} (fun _ => Ok None)
    [("location", PStr blank_location); ("lat", PNum 1)] missing_location_error)).
  split; reflexivity.
Defined.

Lemma dget_or_cons_other :
  forall k k' v kvs d, k <> k' -> dget_or ((k', v) :: kvs) k d = dget_or kvs k d.
Proof.
  intros k k' v kvs d H. unfold dget_or. cbn [dget].
  apply String.eqb_neq in H. rewrite H. reflexivity.
Qed.

(** X: when lat and lon are both given (neither missing nor null), the
    "location" field of the body is ignored: the route answers the same
    whatever value it holds, or without it. *)
Theorem tips_coordinates_ignore_location :
  forall env json_loads cfg llm_call kvs v,
  is_none (dget_or kvs "lat" PNone) = false -> is_none (dget_or kvs "lon" PNone) = false ->
  tips env json_loads cfg llm_call (Some (PDict (("location", v) :: kvs)))
  = tips env json_loads cfg llm_call (Some (PDict kvs)).
Proof.
  intros env json_loads cfg llm_call kvs v Hlat Hlon. rewrite !tips_dict.
  unfold rejected, answer, location_param_of.
  rewrite !(dget_or_cons_other _ "location") by discriminate.
  rewrite Hlat, Hlon. reflexivity.
Qed.

Lemma tips_coordinates_ignore_location_witness :
  tips env_offline (fun _ => None) {| GEMINI_API_KEY := ""; genai_available := false |}
    (fun _ => Ok None) (Some (PDict [("location", PStr "Paris"); ("lat", PNum 1); ("lon", PNum 2)]))
  = tips env_offline (fun _ => None) {| GEMINI_API_KEY := ""; genai_available := false |}
    (fun _ => Ok None) (Some (PDict [("lat", PNum 1); ("lon", PNum 2)])).
Proof. apply tips_coordinates_ignore_location; reflexivity. Defined.

Lemma body_location_none :
  forall kvs, dget kvs "location" = Some PNone -> body_location kvs = "None".
Proof. intros kvs H. unfold body_location, dget_or. rewrite H. reflexivity. Qed.

(** X: a null "location" is not a missing location: [str(None)] is
    "None", so the body is never rejected with 400 and is served exactly as
    a body whose location is the place name "None". *)
Theorem tips_null_location :
  forall env json_loads cfg llm_call kvs,
  dget kvs "location" = Some PNone ->
  tips env json_loads cfg llm_call (Some (PDict kvs))
  = tips env json_loads cfg llm_call (Some (PDict (("location", PStr "None") :: kvs))) /\
  forall p, tips env json_loads cfg llm_call (Some (PDict kvs)) <> Reply 400 p.
Proof.
  intros env json_loads cfg llm_call kvs H.
  assert (Hb : body_location kvs = "None") by (apply body_location_none; exact H).
  assert (Hb' : body_location (("location", PStr "None") :: kvs) = "None") by reflexivity.
  assert (Hr : rejected kvs = false) by (unfold rejected; rewrite Hb, andb_false_r; reflexivity).
  split.
  - rewrite !tips_dict. unfold rejected, answer, location_param_of.
    rewrite Hb, Hb'.
    rewrite !(dget_or_cons_other _ "location") by discriminate.
    reflexivity.
  - intros p. rewrite tips_dict, Hr. intros Ha. apply answer_status in Ha. discriminate.
Qed.

Lemma tips_null_location_witness :
  tips env_offline (fun _ => None) {| GEMINI_API_KEY := ""; genai_available := false |}
    (fun _ => Ok None) (Some (PDict [("location", PNone)]))
  = tips env_offline (fun _ => None) {| GEMINI_API_KEY := ""; genai_available := false |}
    (fun _ => Ok None) (Some (PDict [("location", PStr "None"); ("location", PNone)])) /\
  forall p, tips env_offline (fun _ => None) {| GEMINI_API_KEY := ""; genai_available := false |}
    (fun _ => Ok None) (Some (PDict [("location", PNone)])) <> Reply 400 p.
Proof. apply tips_null_location. reflexivity. Defined.

(** A request body naming a place. *)
Definition paris_body : pyval := PDict [("location", PStr "Paris")].

(** X: with a provider credential configured and a provider that answers
    every query with an HTTP error whose status is not 401, 403 or 429, a
    request that passes validation is answered by the [except] branch with
    that HTTP error (status 500). *)
Theorem tips_provider_error_raised :
  forall env json_loads cfg llm_call kvs st,
  WEATHERAPI_KEY env <> "" -> (forall q, weatherapi env q 4 = HttpFailed st) ->
  denial_status st = false -> rejected kvs = false ->
  tips env json_loads cfg llm_call (Some (PDict kvs)) = ServerError (Raised (HTTPError st)).
Proof.
  intros env json_loads cfg llm_call kvs st Hk Hw Hd Hr.
  rewrite tips_dict, Hr. unfold answer, get_weather_forecast.
  apply String.eqb_neq in Hk. rewrite Hk, Hw, Hd. reflexivity.
Qed.

Lemma tips_provider_error_raised_witness :
  tips (env_with (HttpFailed (Some 500%Z))) (fun _ => None)
    {| GEMINI_API_KEY := ""; genai_available := false |} (fun _ => Ok None)
    (Some (PDict [("location", PStr "Paris")]))
  = ServerError (Raised (HTTPError (Some 500%Z))).
Proof.
  apply tips_provider_error_raised; [discriminate | intros q; reflexivity | reflexivity | reflexivity].
Defined.

(** The same process without a provider credential. *)
Definition without_key (env : weather_env) : weather_env :=
  {| WEATHERAPI_KEY := ""; weatherapi := weatherapi env; today := today env;
     draw := draw env; py_ge_3_12 := py_ge_3_12 env |}.

Lemma tips_env_ext :
  forall e1 e2 json_loads cfg llm_call j,
  (forall q u, get_weather_forecast e1 q u = get_weather_forecast e2 q u) ->
  tips e1 json_loads cfg llm_call j = tips e2 json_loads cfg llm_call j.
Proof.
  intros e1 e2 json_loads cfg llm_call [j|] H; [|reflexivity].
  unfold tips. cbn [rbind].
  destruct (py_or j (PDict [])) as [| | | | | kvs]; try reflexivity.
  cbn [lift py_get rbind]. destruct ((_ || _) && _); [reflexivity|].
  rewrite H. reflexivity.
Qed.

(** X: a provider that only ever fails at the transport level or denies
    the request (401, 403, 429) gives, on every request, exactly the answer
    the same process gives with no provider credential at all. *)
Theorem tips_provider_denial_as_offline :
  forall env json_loads cfg llm_call j,
  (forall q, weatherapi env q 4 = RequestFailed \/
             exists st, weatherapi env q 4 = HttpFailed st /\ denial_status st = true) ->
  tips env json_loads cfg llm_call j = tips (without_key env) json_loads cfg llm_call j.
Proof.
  intros env json_loads cfg llm_call j Hw. apply tips_env_ext.
  intros q u. unfold get_weather_forecast. cbn [WEATHERAPI_KEY without_key String.eqb].
  destruct (String.eqb (WEATHERAPI_KEY env) ""); [reflexivity|].
  destruct (Hw q) as [-> | (st & -> & Hd)]; [reflexivity|]. rewrite Hd. reflexivity.
Qed.

Lemma tips_provider_denial_as_offline_witness :
  tips (env_with (HttpFailed (Some 429%Z))) (fun _ => None)
    {| GEMINI_API_KEY := ""; genai_available := false |} (fun _ => Ok None) (Some paris_body)
  = tips (without_key (env_with (HttpFailed (Some 429%Z)))) (fun _ => None)
    {| GEMINI_API_KEY := ""; genai_available := false |} (fun _ => Ok None) (Some paris_body).
Proof.
  apply tips_provider_denial_as_offline. intros q. right.
  exists (Some 429%Z). split; reflexivity.
Defined.

(** ** Day records and the route's answers *)

Definition day_keys : list string :=
  ["date"; "tempmin"; "tempmax"; "humidity"; "windspeed"; "precip"; "description"].

(** A forecast day record: a dict with the seven canonical keys, in order,
    whose precip is a number or a truthy value. *)
Definition record_ok (d : pyval) : Prop :=
  exists kvs, d = PDict kvs /\ map fst kvs = day_keys /\
  exists p, dget kvs "precip" = Some p /\ (truthy p = true \/ exists q, p = PNum q).


Lemma mock_day_ok : forall t dr o, record_ok (mock_day t dr o).
Proof.
  intros t dr o. eexists. split; [reflexivity|]. split; [reflexivity|].
  eexists. split; [reflexivity|]. right. eexists. reflexivity.
Qed.

Lemma mock_forecast_ok : forall t dr, Forall record_ok (_mock_forecast_3_days t dr).
Proof. intros t dr. repeat constructor; apply mock_day_ok. Qed.

Lemma normalize_day_ok : forall u fd d, normalize_day u fd = Ok d -> record_ok d.
Proof.
  intros u fd d H. unfold normalize_day in H. res_inv H.
  destruct a1 as [[[tmin tmax] wind] pr]. cbn [bind] in H. res_inv H.
  injection H as <-. eexists. split; [reflexivity|]. split; [reflexivity|].
  eexists. split; [reflexivity|]. unfold py_or.
  destruct (truthy pr) eqn:Et; [left; exact Et | right; eexists; reflexivity].
Qed.

Lemma res_mapM_forall :
  forall {A B} (f : A -> res B) (P : B -> Prop) xs ys,
  (forall x y, f x = Ok y -> P y) -> res_mapM f xs = Ok ys -> Forall P ys.
Proof.
  intros A B f P xs. induction xs as [|x xs IH]; intros ys Hf H.
  - injection H as <-. constructor.
  - simpl in H. destruct (f x) as [y|] eqn:E; [|discriminate]. simpl in H.
    destruct (res_mapM f xs) as [zs|] eqn:Ez; [|discriminate].
    injection H as <-. constructor; [exact (Hf _ _ E) | apply IH; auto].
Qed.

Lemma forecast_ok :
  forall env q u days, get_weather_forecast env q u = Ok days ->
  Forall record_ok days /\ (length days <= 3)%nat.
Proof.
  intros env q u days H. unfold get_weather_forecast in H.
  assert (Hm : forall t dr, Forall record_ok (_mock_forecast_3_days t dr) /\
                            (length (_mock_forecast_3_days t dr) <= 3)%nat)
    by (intros t dr; split; [apply mock_forecast_ok | simpl; lia]).
  destruct (String.eqb (WEATHERAPI_KEY env) ""); [injection H as <-; apply Hm|].
  destruct (weatherapi env q 4) as [| st | data]; [injection H as <-; apply Hm| |].
  - destruct (denial_status st); [injection H as <-; apply Hm | discriminate].
  - unfold normalize_forecast in H. res_inv H. split.
    + exact (res_mapM_forall _ _ _ _ (normalize_day_ok u) H).
    + rewrite (res_mapM_length _ _ _ H). exact (slice_length _ _ _ E1).
Qed.


Lemma lift_inl : forall {A} (r : res A) e, lift r = inl e -> exists e', e = Raised e'.
Proof. intros A [a'|e'] e H; cbn in H; [discriminate|]. injection H as <-. eexists; reflexivity. Qed.



Lemma record_date : forall d, record_ok d -> exists kvs v, d = PDict kvs /\ dget kvs "date" = Some v.
Proof.
  intros d (kvs & -> & Hk & _). destruct kvs as [|[k v] kvs]; [discriminate|].
  injection Hk as Hk _. subst k. exists ((("date", v) :: kvs)), v. split; reflexivity.
Qed.

(** ** The tip generators never raise a [KeyError] of their own *)

Lemma bind_nokey :
  forall {A B} (m : res A) (k : A -> res B),
  m <> Err KeyError -> (forall a, k a <> Err KeyError) -> bind m k <> Err KeyError.
Proof.
  intros A B [a|e] k Hm Hk; cbn [bind]; [apply Hk|].
  intros H. injection H as ->. apply Hm. reflexivity.
Qed.

Lemma py_get_nokey : forall x k d, py_get x k d <> Err KeyError.
Proof. intros [| | | | | kvs] k d; discriminate. Qed.

Lemma py_num_nokey : forall x, py_num x <> Err KeyError.
Proof. intros [| | | | | kvs]; discriminate. Qed.

Create HintDb nokey.
#[local] Hint Resolve py_get_nokey py_num_nokey : nokey.

(** Prove [m <> Err KeyError] through binds, conditionals and matches. *)
Ltac nokey :=
  cbv beta zeta;
  match goal with
  | |- bind _ _ <> Err KeyError => apply bind_nokey; [nokey | intros ?; nokey]
  | |- (if ?b then _ else _) <> Err KeyError => destruct b; nokey
  | |- match ?x with _ => _ end <> Err KeyError => destruct x; nokey
  | |- Ok _ <> Err KeyError => discriminate
  | |- Err ?e <> Err KeyError =>
      let H := fresh in intros H; injection H; assumption
  | |- _ => solve [auto with nokey]
  end.

Lemma get_or_nokey : forall day k d, get_or day k d <> Err KeyError.
Proof. intros. unfold get_or. nokey. Qed.

Lemma py_gt_nokey : forall x c, py_gt x c <> Err KeyError.
Proof. intros. unfold py_gt. nokey. Qed.

Lemma py_lt_nokey : forall x c, py_lt x c <> Err KeyError.
Proof. intros. unfold py_lt. nokey. Qed.

Lemma py_lower_nokey : forall x, py_lower x <> Err KeyError.
Proof. intros [| | | | | kvs]; discriminate. Qed.

#[local] Hint Resolve get_or_nokey py_gt_nokey py_lt_nokey py_lower_nokey : nokey.

Lemma fallback_nokey : forall day, get_fallback_tips day <> Err KeyError.
Proof. intros. unfold get_fallback_tips. nokey. Qed.

Lemma focus_rules_nokey :
  forall day focus tips focuses, _apply_focus_rules day focus tips focuses <> Err KeyError.
Proof. intros. unfold _apply_focus_rules. nokey. Qed.

#[local] Hint Resolve fallback_nokey focus_rules_nokey : nokey.

Lemma focuses_arg_nokey : forall x e, focuses_arg x = Err e -> e <> KeyError.
Proof.
  intros x e H. unfold focuses_arg in H.
  destruct (negb (truthy x)); [discriminate|].
  destruct x; try discriminate; injection H as <-; discriminate.
Qed.

Lemma route_tips_nokey :
  forall json_loads cfg llm_call day focus focuses,
  llm_call <> Err KeyError ->
  route_tips json_loads cfg llm_call day focus focuses <> Err KeyError.
Proof.
  intros json_loads cfg llm_call day focus focuses Hl. unfold route_tips.
  destruct (focuses_arg focuses) as [fs|e] eqn:Ef.
  - unfold generate_tips_gemini. nokey.
  - pose proof (focuses_arg_nokey _ _ Ef). nokey.
Qed.

Lemma route_days_no_keyerror :
  forall json_loads cfg llm_call focus focuses forecast i,
  (forall n, llm_call n <> Err KeyError) ->
  Forall record_ok forecast ->
  route_days json_loads cfg llm_call focus focuses i forecast <> inl (Raised KeyError).
Proof.
  intros json_loads cfg llm_call focus focuses forecast.
  induction forecast as [|d rest IH]; intros i Hl Hall; [discriminate|].
  inversion Hall as [|d' rest' Hd Hrest]; subst.
  destruct (record_date d Hd) as (kvs & v & -> & Hv).
  cbn [route_days].
  destruct (route_tips json_loads cfg (llm_call i) (PDict kvs) focus focuses)
    as [s|e] eqn:Et; cbn [lift rbind].
  - unfold py_index. rewrite Hv. cbn [rbind lift py_get].
    destruct (route_days json_loads cfg llm_call focus focuses (S i) rest) as [e|es] eqn:Er;
      cbn [rbind]; [|discriminate].
    intros He. injection He as ->. exact (IH (S i) Hl Hrest Er).
  - intros He. injection He as ->.
    exact (route_tips_nokey json_loads cfg (llm_call i) (PDict kvs) focus focuses (Hl i) Et).
Qed.

(** X: every successful forecast, mock or normalized from the provider,
    is a list of at most 3 dicts, each with exactly the keys date,
    tempmin, tempmax, humidity, windspeed, precip and description in this
    order, and a precip that is a number or a truthy value (never None). *)
Theorem forecast_records_shape :
  forall env location_param unit_group days,
  get_weather_forecast env location_param unit_group = Ok days ->
  (length days <= 3)%nat /\ Forall record_ok days.
Proof.
  intros env q u days H. destruct (forecast_ok env q u days H) as [Ha Hl]. split; assumption.
Qed.

(** A provider body for today and the next three days. *)
Definition four_day_body : pyval :=
  PDict [("forecast", PDict [("forecastday", PList
    [PDict [("date", PStr "2026-10-16")];
     PDict [("date", PStr "2026-10-17");
            ("day", PDict [("maxtemp_f", PNum 90); ("totalprecip_in", PNum (5 # 10));
                           ("condition", PDict [("text", PStr "Sunny")])])];
     PDict [("date", PStr "2026-10-18"); ("day", PDict [("mintemp_f", PNum 40)])];
     PDict [("date", PStr "2026-10-19")]])])].

(** The forecast the route reads for that body. *)
Definition four_day_forecast : list pyval :=
  match get_weather_forecast (env_with (Body four_day_body)) "Paris" "us" with
  | Ok fc => fc | Err _ => [] end.

Lemma forecast_records_shape_witness :
  four_day_forecast <> _mock_forecast_3_days (fun _ => 20742%Z) (fun _ => 0%Z) /\
  (length four_day_forecast <= 3)%nat /\ Forall record_ok four_day_forecast.
Proof.
  split; [vm_compute; discriminate|].
  apply (forecast_records_shape (env_with (Body four_day_body)) "Paris" "us").
  vm_compute. reflexivity.
Defined.

(** X: the loop over a forecast the normalizer returned never ends in a
    [KeyError]: [d["date"]] always finds the date of the record, and the
    tip generators raise none of their own; a [KeyError] can only come
    from the LLM call. *)
Theorem forecast_loop_no_keyerror :
  forall env location_param unit_group forecast json_loads cfg llm_call focus focuses,
  get_weather_forecast env location_param unit_group = Ok forecast ->
  (forall n, llm_call n <> Err KeyError) ->
  route_days json_loads cfg llm_call focus focuses 0 forecast <> inl (Raised KeyError).
Proof.
  intros env q u fc json_loads cfg llm_call focus focuses Ef Hl.
  exact (route_days_no_keyerror _ _ _ _ _ _ _ Hl (proj1 (forecast_ok _ _ _ _ Ef))).
Qed.

Lemma forecast_loop_no_keyerror_witness :
  route_days (fun _ => Some (PDict [("suggestions", PList [PStr "a"; PStr "b"; PStr "c"])]))
    {| GEMINI_API_KEY := "key"; genai_available := true |} (fun _ => Ok (Some "{}"))
    (PStr "thermostat") PNone 0 four_day_forecast
  <> inl (Raised KeyError).
Proof.
  apply (forecast_loop_no_keyerror (env_with (Body four_day_body)) "Paris" "us");
    [vm_compute; reflexivity | intros n; discriminate].
Defined.




(** ** The LLM path *)

Lemma map_py_str_PStr : forall ss, map py_str (map PStr ss) = ss.
Proof. induction ss as [|x ss IH]; simpl; [reflexivity | rewrite IH; reflexivity]. Qed.

(** X: when the LLM is configured, its call returns, and the cleaned
    answer parses as an object whose "suggestions" is a list of exactly 3
    strings, and no focus token is selected, the generator returns those 3
    strings unchanged and in order. *)
Theorem llm_tips_verbatim :
  forall json_loads cfg text day focus focuses kvs ss,
  GEMINI_API_KEY cfg <> "" -> genai_available cfg = true ->
  json_loads (llm_clean text) = Some (PDict kvs) ->
  dget kvs "suggestions" = Some (PList (map PStr ss)) -> length ss = 3%nat ->
  selected focus focuses = [] ->
  generate_tips_gemini json_loads cfg (Ok text) day focus focuses = Ok ss.
Proof.
  intros json_loads cfg text day focus focuses kvs ss Hk Ha Hj Hs Hl Hsel.
  unfold generate_tips_gemini. apply String.eqb_neq in Hk. rewrite Hk, Ha. cbn [orb negb bind].
  unfold gemini_attempt. rewrite Hj. cbn [py_get bind]. rewrite Hs, length_map.
  apply Nat.eqb_eq in Hl. rewrite Hl.
  unfold _apply_focus_rules at 1. rewrite Hsel. cbn [bind]. rewrite map_py_str_PStr.
  reflexivity.
Qed.

Lemma llm_tips_verbatim_witness :
  generate_tips_gemini
    (fun _ => Some (PDict [("suggestions", PList [PStr "Run the dishwasher at night."; PStr "b"; PStr "c"])]))
    {| GEMINI_API_KEY := "key"; genai_available := true |}
    (Ok (Some "{...}")) (PDict [("tempmax", PNum 90)]) PNone None
  = Ok ["Run the dishwasher at night."; "b"; "c"].
Proof.
  apply (llm_tips_verbatim _ _ _ _ _ _
           [("suggestions", PList [PStr "Run the dishwasher at night."; PStr "b"; PStr "c"])]);
    try reflexivity. discriminate.
Defined.

Lemma sappend_assoc : forall a b c : string, ((a ++ b) ++ c) = (a ++ (b ++ c)).
Proof. induction a as [|x a IH]; intros b c; simpl; [reflexivity | rewrite IH; reflexivity]. Qed.

Lemma sappend_nil_r : forall a : string, (a ++ "") = a.
Proof. induction a as [|x a IH]; simpl; [reflexivity | rewrite IH; reflexivity]. Qed.

Lemma str_rev_app : forall a b, str_rev (a ++ b) = (str_rev b ++ str_rev a).
Proof.
  induction a as [|x a IH]; intros b; simpl.
  - rewrite sappend_nil_r. reflexivity.
  - rewrite IH, sappend_assoc. reflexivity.
Qed.

Lemma lstrip_app_stop :
  forall cs c b a, char_in c cs = false ->
  exists x, lstrip cs (a ++ String c b) = (x ++ String c b).
Proof.
  intros cs c b a Hc. induction a as [|d a IH]; simpl.
  - rewrite Hc. exists "". reflexivity.
  - destruct (char_in d cs); [exact IH|]. exists (String d a). reflexivity.
Qed.

(** [s.rstrip()] of a string ending in "```json" keeps that ending. *)
Lemma rstrip_rev_fence :
  forall a, exists x, rstrip_rev (a ++ "nosj```") = (x ++ "nosj```").
Proof.
  intros a. remember (String.length a) as n eqn:Hn. revert a Hn.
  induction n as [n IH] using (well_founded_induction lt_wf). intros a Hn.
  destruct a as [|c a1]; [exists ""; reflexivity|].
  cbn [String.append rstrip_rev].
  destruct (ws1 c) eqn:E1.
  { apply (IH (String.length a1)); [subst n; simpl; lia | reflexivity]. }
  destruct a1 as [|c2 a2].
  { exists (String c ""). cbn [String.append]. unfold ws2, ws3.
    rewrite !Bool.andb_false_l. reflexivity. }
  cbn [String.append]. destruct (ws2 c2 c) eqn:E2.
  { apply (IH (String.length a2)); [subst n; simpl; lia | reflexivity]. }
  destruct a2 as [|c3 a3].
  { exists (String c (String c2 "")). cbn [String.append]. unfold ws3.
    rewrite !Bool.andb_false_l. reflexivity. }
  cbn [String.append]. destruct (ws3 c3 c2 c) eqn:E3.
  { apply (IH (String.length a3)); [subst n; simpl; lia | reflexivity]. }
  exists (String c (String c2 (String c3 a3))). reflexivity.
Qed.

(** A fenced answer ["```json ..."] keeps its language tag after cleaning:
    [strip("`\n ")] removes the backticks but not the word "json". *)
Lemma llm_clean_fence : forall s, exists w, llm_clean (Some ("```json" ++ s)) = ("json" ++ w).
Proof.
  intros s. unfold llm_clean, strip_ws, strip. cbv beta iota zeta.
  assert (E1 : lstrip_ws ("```json" ++ s) = ("```json" ++ s)) by reflexivity.
  rewrite E1, str_rev_app.
  assert (E2 : str_rev "```json" = "nosj```") by reflexivity.
  rewrite E2.
  destruct (rstrip_rev_fence (str_rev s)) as [x Hx].
  rewrite Hx, str_rev_app.
  assert (E3 : str_rev "nosj```" = "```json") by reflexivity.
  rewrite E3.
  assert (E4 : lstrip ["`"%char; "010"%char; " "%char] ("```json" ++ str_rev x)
               = ("json" ++ str_rev x)) by reflexivity.
  rewrite E4, str_rev_app.
  assert (E5 : str_rev "json" = String "n" "osj") by reflexivity.
  rewrite E5.
  destruct (lstrip_app_stop ["`"%char; "010"%char; " "%char] "n" "osj"
              (str_rev (str_rev x)) eq_refl) as [y Hy].
  rewrite Hy, str_rev_app.
  exists (str_rev y). reflexivity.
Qed.

(** X: an LLM answer in a Markdown code fence tagged json
    ("```json" followed by anything) is never parsed, since its cleaned
    text starts with "json", which [json.loads] rejects: the generator
    returns the rule-engine tips after focus overrides. *)
Theorem llm_fenced_json_falls_back :
  forall (json_loads : string -> option pyval) cfg s day focus focuses,
  (forall w, json_loads ("json" ++ w) = None) ->
  generate_tips_gemini json_loads cfg (Ok (Some ("```json" ++ s))) day focus focuses
  = (base <- get_fallback_tips day ;; _apply_focus_rules day focus base focuses).
Proof.
  intros json_loads cfg s day focus focuses Hj.
  destruct (llm_clean_fence s) as [w Hw]. unfold generate_tips_gemini.
  destruct (_ || _); [reflexivity|]. cbn [bind].
  unfold gemini_attempt. rewrite Hw, Hj. reflexivity.
Qed.

(** A parser that accepts exactly the texts starting with "{". *)
Definition brace_loads (t : string) : option pyval :=
  if starts_with "{" t
  then Some (PDict [("suggestions", PList [PStr "a"; PStr "b"; PStr "c"])])
  else None.

Lemma llm_fenced_json_falls_back_witness :
  generate_tips_gemini brace_loads {| GEMINI_API_KEY := "key"; genai_available := true |}
    (Ok (Some "{}")) (PDict []) PNone None = Ok ["a"; "b"; "c"] /\
  generate_tips_gemini brace_loads {| GEMINI_API_KEY := "key"; genai_available := true |}
    (Ok (Some ("```json" ++ " {} ```"))) (PDict []) PNone None
  = (base <- get_fallback_tips (PDict []) ;; _apply_focus_rules (PDict []) PNone base None).
Proof.
  split; [reflexivity|].
  apply llm_fenced_json_falls_back. intros w. reflexivity.
Defined.

(** ** Focus values of the request *)

Lemma apply_focus_selected_eq :
  forall day f1 o1 f2 o2 tips, selected f1 o1 = selected f2 o2 ->
  _apply_focus_rules day f1 tips o1 = _apply_focus_rules day f2 tips o2.
Proof. intros day f1 o1 f2 o2 tips H. unfold _apply_focus_rules. rewrite H. reflexivity. Qed.

Lemma generate_selected_eq :
  forall json_loads cfg text day f1 o1 f2 o2, selected f1 o1 = selected f2 o2 ->
  generate_tips_gemini json_loads cfg text day f1 o1
  = generate_tips_gemini json_loads cfg text day f2 o2.
Proof.
  intros json_loads cfg text day f1 o1 f2 o2 H.
  unfold generate_tips_gemini, gemini_attempt, _apply_focus_rules. rewrite H. reflexivity.
Qed.

Lemma single_char_unrecognized : forall c, unrecognized (PStr (String c EmptyString)).
Proof. intros [[] [] [] [] [] [] [] []]; reflexivity. Qed.

(** Every character of [list(s)] is one byte, or a lead byte followed by
    a continuation byte and more. *)
Lemma utf8_chars_shape :
  forall s ch, In ch (utf8_chars s) ->
  (exists c, ch = String c "") \/
  (exists c c2 r, ch = String c (String c2 r) /\ is_cont c2 = true).
Proof.
  induction s as [|c s IH]; intros ch Hin; [destruct Hin|].
  cbn [utf8_chars] in Hin.
  destruct (utf8_chars s) as [|[|c1 t] rest] eqn:Es.
  - destruct Hin as [<-|[]]. left. eauto.
  - destruct Hin as [<-|Hin]; [left; eauto | apply IH; exact Hin].
  - destruct (is_cont c1) eqn:Ec.
    + destruct Hin as [<-|Hin]; [right; eauto | apply IH; right; exact Hin].
    + destruct Hin as [<-|Hin]; [left; eauto | apply IH; exact Hin].
Qed.

Lemma utf8_chars_nonempty : forall c s, utf8_chars (String c s) <> [].
Proof.
  intros c s. cbn [utf8_chars].
  destruct (utf8_chars s) as [|[|c1 t] rest]; try discriminate.
  destruct (is_cont c1); discriminate.
Qed.

(** No focus token starts with a byte other than "t" and "s", or has a
    non-ASCII second byte. *)
Lemma mem_first_byte :
  forall x u, x <> "t"%char -> x <> "s"%char -> mem (String x u) focus_tokens = false.
Proof.
  intros x u Ht Hs. unfold mem, focus_tokens. simpl.
  destruct (Ascii.eqb_spec x "t"); [congruence|].
  destruct (Ascii.eqb_spec x "s"); [congruence|]. reflexivity.
Qed.

Lemma mem_high_second :
  forall x b u, (128 <= nat_of_ascii b)%nat -> mem (String x (String b u)) focus_tokens = false.
Proof.
  intros x b u Hb.
  assert (Hne : forall h, (nat_of_ascii h < 128)%nat -> Ascii.eqb b h = false).
  { intros h Hh. destruct (Ascii.eqb_spec b h) as [->|]; [lia | reflexivity]. }
  unfold mem, focus_tokens. simpl.
  rewrite (Hne "h"%char), (Hne "p"%char), (Hne "o"%char) by (cbn; lia).
  destruct (Ascii.eqb x "t"), (Ascii.eqb x "s"); reflexivity.
Qed.

Lemma chunk_unrecognized :
  forall c c2 r, is_cont c2 = true -> unrecognized (PStr (String c (String c2 r))).
Proof.
  intros c c2 r Hc. unfold unrecognized, py_str.
  unfold is_cont in Hc. apply andb_prop in Hc as [H1 H2].
  apply Nat.leb_le in H1. apply Nat.leb_le in H2.
  destruct (byte_is c 196 && byte_is c2 176) eqn:Ei.
  { assert (H : lower (String c (String c2 r))
                = String "i" (String (byte 204) (String (byte 135) (lower r))))
      by (cbn [lower]; rewrite Ei; reflexivity).
    rewrite H. apply mem_first_byte; discriminate. }
  destruct r as [|c3 r3].
  { assert (H : lower (String c (String c2 ""))
                = String (lower_ascii c) (String (lower_ascii c2) ""))
      by (cbn [lower]; rewrite Ei; reflexivity).
    rewrite H. apply mem_high_second.
    pose proof (lower_ascii_byte_is c2 (nat_of_ascii c2) H1) as E.
    unfold byte_is in E. rewrite Nat.eqb_refl in E. apply Nat.eqb_eq in E. lia. }
  destruct (byte_is c 226 && byte_is c2 132 && byte_is c3 170) eqn:Ek.
  { assert (H : lower (String c (String c2 (String c3 r3))) = String "k" (lower r3))
      by (cbn [lower]; rewrite Ei, Ek; reflexivity).
    rewrite H. apply mem_first_byte; discriminate. }
  assert (H : lower (String c (String c2 (String c3 r3)))
              = String (lower_ascii c) (lower (String c2 (String c3 r3))))
    by (cbn [lower]; rewrite Ei, Ek; reflexivity).
  rewrite H.
  pose proof (lower_head_is (String c2 (String c3 r3)) (nat_of_ascii c2)) as Hh.
  destruct (lower_cons_shape c2 (String c3 r3)) as (a & u & Hu).
  rewrite Hu in *. cbn [head_is] in Hh. unfold byte_is in Hh.
  rewrite Nat.eqb_refl in Hh. specialize (Hh ltac:(lia) ltac:(lia) ltac:(lia)).
  apply Nat.eqb_eq in Hh. apply mem_high_second. lia.
Qed.

(** X: a non-empty string given as "focuses" is iterated character by
    character, and no single character is a focus token: the tips are the
    same as for a request with neither focus nor focuses, whatever the
    single "focus" says. *)
Theorem string_focuses_disable_focus :
  forall json_loads cfg text day focus s, s <> "" ->
  route_tips json_loads cfg text day focus (PStr s)
  = route_tips json_loads cfg text day PNone PNone.
Proof.
  intros json_loads cfg text day focus s Hs. unfold route_tips, focuses_arg.
  cbn [truthy negb]. apply String.eqb_neq in Hs. rewrite Hs. cbn [negb].
  apply generate_selected_eq.
  destruct s as [|c s]; [discriminate|].
  rewrite selected_unrecognized; [reflexivity| |].
  - intros H. apply map_eq_nil in H. exact (utf8_chars_nonempty c s H).
  - apply Forall_forall. intros x Hx. apply in_map_iff in Hx as (ch & <- & Hin).
    destruct (utf8_chars_shape _ _ Hin) as [(c' & ->) | (c' & c2 & r & -> & Hc)].
    + apply single_char_unrecognized.
    + apply chunk_unrecognized. exact Hc.
Qed.

Lemma string_focuses_disable_focus_witness :
  route_tips (fun _ => None) {| GEMINI_API_KEY := ""; genai_available := false |} (Ok None)
    (PDict [("tempmax", PNum 90)]) (PStr "thermostat") (PStr "thermostat")
  = route_tips (fun _ => None) {| GEMINI_API_KEY := ""; genai_available := false |} (Ok None)
    (PDict [("tempmax", PNum 90)]) PNone PNone.
Proof. apply string_focuses_disable_focus. discriminate. Defined.

(** ** The offline service *)

Lemma fallback_ok : forall day, well_typed_day day = true -> exists l, get_fallback_tips day = Ok l.
Proof.
  intros [| b | q | s | l | kvs] Hw; try discriminate.
  apply andb_prop in Hw as [Hn _].
  destruct (numeric_fields_get_or kvs Hn) as
    [(t & Et & Qt) [(p & Ep & Qp) (w & Ew & Qw)]].
  unfold get_fallback_tips. rewrite Et, Ep, Ew. cbn [bind].
  unfold py_gt, py_lt. rewrite Qt, Qp, Qw. cbn [bind].
  destruct (Qltb 85 (day_num (PDict kvs) "tempmax" 70)); cbn [bind]; eexists; reflexivity.
Qed.

Lemma apply_focus_ok :
  forall day focus tips focuses, well_typed_day day = true ->
  exists l, _apply_focus_rules day focus tips focuses = Ok l.
Proof.
  intros day focus tips focuses Hw.
  destruct (selected focus focuses) eqn:Hs.
  - exists tips. unfold _apply_focus_rules. rewrite Hs. reflexivity.
  - eexists. apply apply_focus_nonempty; [exact Hw | rewrite Hs; discriminate].
Qed.

Lemma generate_ok :
  forall json_loads cfg text day focus focuses,
  well_typed_day day = true -> is_err text = false ->
  exists l, generate_tips_gemini json_loads cfg text day focus focuses = Ok l.
Proof.
  intros json_loads cfg text day focus focuses Hw Ht.
  assert (Hfb : exists l, (base <- get_fallback_tips day ;;
                           _apply_focus_rules day focus base focuses) = Ok l).
  { destruct (fallback_ok day Hw) as [b Hb]. rewrite Hb. cbn [bind].
    apply apply_focus_ok. exact Hw. }
  unfold generate_tips_gemini. destruct (_ || _); [exact Hfb|].
  destruct text as [o|e]; [|discriminate]. cbn [bind].
  destruct (gemini_attempt _ _ _ _ _) as [[t|]|e]; [eexists; reflexivity | exact Hfb | exact Hfb].
Qed.

Lemma mock_day_well_typed : forall t dr o, well_typed_day (mock_day t dr o) = true.
Proof.
  intros t dr o. unfold well_typed_day, numeric_fields, desc_ok, mock_day, num_or_falsy.
  cbn [dget String.eqb Ascii.eqb Bool.eqb andb]. rewrite !orb_true_r. reflexivity.
Qed.

(** A day record the route reads without raising. *)
Definition route_readable (d : pyval) : Prop :=
  well_typed_day d = true /\ exists kvs v, d = PDict kvs /\ dget kvs "date" = Some v.

Lemma route_days_succeed :
  forall json_loads cfg llm_call focus focuses forecast i,
  is_err (focuses_arg focuses) = false -> (forall n, is_err (llm_call n) = false) ->
  Forall route_readable forecast ->
  exists days, route_days json_loads cfg llm_call focus focuses i forecast = inr days
               /\ length days = length forecast.
Proof.
  intros json_loads cfg llm_call focus focuses forecast.
  induction forecast as [|d rest IH]; intros i Hf Hc Hall; [exists []; split; reflexivity|].
  inversion Hall as [|d' rest' [Hw (kvs & v & Hd & Hv)] Hrest]; subst.
  destruct (IH (S i) Hf Hc Hrest) as (days & Ed & Hl).
  destruct (focuses_arg focuses) as [fs|e] eqn:Ef; [|discriminate].
  destruct (generate_ok json_loads cfg (llm_call i) (PDict kvs) focus fs Hw (Hc i)) as [sug Hg].
  cbn [route_days]. unfold route_tips. rewrite Ef, Hg. cbn [lift rbind].
  unfold py_index. rewrite Hv. cbn [rbind lift py_get]. rewrite Ed. cbn [rbind].
  eexists. split; [reflexivity|]. simpl. rewrite Hl. reflexivity.
Qed.

Lemma mock_readable : forall t dr, Forall route_readable (_mock_forecast_3_days t dr).
Proof.
  intros t dr. repeat constructor; try apply mock_day_well_typed;
    do 2 eexists; split; reflexivity.
Qed.

(** X: without a provider credential the route always serves: every JSON
    object that passes validation and whose "focuses" is iterable (or
    falsy) is answered 200 with exactly 3 days, whatever the LLM
    configuration and answers, as long as every LLM call returns. *)
Theorem tips_offline_always_answers :
  forall env json_loads cfg llm_call kvs,
  WEATHERAPI_KEY env = "" -> rejected kvs = false ->
  is_err (focuses_arg (dget_or kvs "focuses" PNone)) = false ->
  (forall n, is_err (llm_call n) = false) ->
  exists loc days,
    tips env json_loads cfg llm_call (Some (PDict kvs))
    = Reply 200 (PDict [("location", PStr loc);
                        ("unit_group", dget_or kvs "unit_group" (PStr "us"));
                        ("days", PList days)]) /\
    length days = 3%nat.
Proof.
  intros env json_loads cfg llm_call kvs Hk Hr Hf Hc.
  rewrite tips_dict, Hr. unfold answer, get_weather_forecast. rewrite Hk. cbn [String.eqb lift rbind].
  destruct (route_days_succeed json_loads cfg llm_call (dget_or kvs "focus" PNone)
              (dget_or kvs "focuses" PNone) (_mock_forecast_3_days (today env) (draw env)) 0 Hf Hc
              (mock_readable _ _)) as (days & Ed & Hl).
  rewrite Ed. cbn [rbind]. exists (location_param_of kvs), days. split; [reflexivity | exact Hl].
Qed.

Lemma tips_offline_always_answers_witness :
  exists loc days,
    tips env_offline brace_loads {| GEMINI_API_KEY := "key"; genai_available := true |}
      (fun _ => Ok (Some "not json"))
      (Some (PDict [("location", PStr "Paris"); ("focuses", PStr "solar")]))
    = Reply 200 (PDict [("location", PStr loc);
                        ("unit_group", dget_or [("location", PStr "Paris"); ("focuses", PStr "solar")]
                                         "unit_group" (PStr "us"));
                        ("days", PList days)]) /\
    length days = 3%nat.
Proof. apply tips_offline_always_answers; intros; reflexivity. Defined.

Lemma generate_tips_three_witness :
  generate_tips_gemini brace_loads {| GEMINI_API_KEY := "key"; genai_available := true |}
    (Ok (Some "{}")) (PDict [("tempmax", PNum 90)]) (PStr "thermostat") None
  = Ok [focus_tip_hot; "a"; "b"] /\
  length [focus_tip_hot; "a"; "b"] = 3%nat.
Proof.
  split; [reflexivity|].
  apply (generate_tips_three brace_loads {| GEMINI_API_KEY := "key"; genai_available := true |}
    (Ok (Some "{}")) (PDict [("tempmax", PNum 90)]) (PStr "thermostat") None).
  reflexivity.
Defined.

(** X: a "focuses" value that is a non-zero number or [true] cannot be
    iterated: without a provider credential, a request that passes
    validation is answered by the [except] branch with a [TypeError]
    (status 500), as long as the LLM call made for the first day, if
    any, returns. *)
Theorem tips_numeric_focuses_error :
  forall env json_loads cfg llm_call kvs,
  WEATHERAPI_KEY env = "" -> rejected kvs = false ->
  ((exists q, dget_or kvs "focuses" PNone = PNum q /\ Qeq_bool q 0 = false) \/
   dget_or kvs "focuses" PNone = PBool true) ->
  is_err (llm_call 0%nat) = false ->
  tips env json_loads cfg llm_call (Some (PDict kvs)) = ServerError (Raised TypeError).
Proof.
  intros env json_loads cfg llm_call kvs Hk Hr Hf Hc.
  assert (Ef : focuses_arg (dget_or kvs "focuses" PNone) = Err TypeError).
  { destruct Hf as [(q & -> & Hq) | ->]; [|reflexivity].
    unfold focuses_arg. cbn [truthy]. rewrite Hq. reflexivity. }
  rewrite tips_dict, Hr. unfold answer, get_weather_forecast. rewrite Hk.
  cbn [String.eqb lift rbind].
  destruct (fallback_ok (mock_day (today env) (draw env) 1) (mock_day_well_typed _ _ _))
    as [l Hl].
  unfold _mock_forecast_3_days. cbn [map route_days].
  unfold route_tips. rewrite Ef.
  destruct (_ || _); cbn [bind].
  - rewrite Hl. reflexivity.
  - destruct (llm_call 0%nat); [|discriminate]. cbn [bind]. rewrite Hl. reflexivity.
Qed.

Lemma tips_numeric_focuses_error_witness :
  tips env_offline brace_loads {| GEMINI_API_KEY := "key"; genai_available := true |}
    (fun _ => Ok (Some "{}")) (Some (PDict [("location", PStr "Paris"); ("focuses", PNum 1)]))
  = ServerError (Raised TypeError).
Proof.
  apply tips_numeric_focuses_error; [reflexivity | reflexivity | | reflexivity].
  left. exists 1. split; reflexivity.
Defined.
